(** * Mexican Sign Language web client

    A shallow embedding of the two hand-written parts of the browser client:

    - [src/lib/state.ts]: the process-wide [AppState] store, whose setters
      mutate one state object and dispatch a [stateChange] event;
    - [src/scripts/video-processing.js]: the snapshot flow bound to the
      capture button ([captureSnapshot], [sendImageToServer],
      [handleServerError], [processServerResponse], [extractDetectionData],
      [updateResultsUI]).

    The code is JavaScript, so the embedding starts with the part of the
    language the functions rely on: strings as sequences of UTF-16 code
    units, numbers as IEEE 754 binary64 values, dynamically typed values as
    they come out of [JSON.parse], property access that throws on [null]
    and [undefined], and exceptions as an error monad. *)

From Stdlib Require Import ZArith NArith QArith Qround Qabs String Ascii List Bool Lia.
From Stdlib Require Import Floats.PrimFloat Floats.FloatOps Floats.SpecFloat.
From stdpp Require Import gmap strings.

Set Default Proof Using "Type".
Set Warnings "-register-all,-inexact-float".

(** ** Strings *)

(** A JavaScript string is a sequence of 16-bit code units. *)
Definition jsstring : Type := list N.

Module Utf.

(** Source literals are written in Rocq as UTF-8 text; [units] turns the
    bytes of such a literal into the code units the engine holds. *)
Definition surrogates (cp : N) : list N :=
  let c := (cp - 65536)%N in
  [(55296 + c / 1024)%N; (56320 + c mod 1024)%N].

Fixpoint units (bs : list N) : list N :=
  match bs with
  | [] => []
  | b :: rest =>
      if (b <? 128)%N then b :: units rest
      else if (b <? 224)%N then
        match rest with
        | c :: rest1 => ((b - 192) * 64 + (c - 128))%N :: units rest1
        | [] => [b]
        end
      else if (b <? 240)%N then
        match rest with
        | c :: d :: rest2 =>
            ((b - 224) * 4096 + (c - 128) * 64 + (d - 128))%N :: units rest2
        | _ => [b]
        end
      else
        match rest with
        | c :: d :: e :: rest3 =>
            surrogates ((b - 240) * 262144 + (c - 128) * 4096
                        + (d - 128) * 64 + (e - 128))%N ++ units rest3
        | _ => [b]
        end
  end.

End Utf.

Definition js (s : string) : jsstring :=
  Utf.units (map N_of_ascii (list_ascii_of_string s)).

(** [s.charAt(0)] and [s.slice(1)]. *)
Definition charAt0 (s : jsstring) : jsstring :=
  match s with
  | [] => []
  | c :: _ => [c]
  end.

Definition slice1 (s : jsstring) : jsstring := tl s.

Definition is_ascii (c : N) : bool := (c <? 128)%N.

Definition ascii_upper (c : N) : N :=
  if (97 <=? c)%N && (c <=? 122)%N then (c - 32)%N else c.

(** Position of the first occurrence of a code unit, for [split(sep)[0]]. *)
Fixpoint before (sep : N) (s : jsstring) : jsstring :=
  match s with
  | [] => []
  | c :: rest => if (c =? sep)%N then [] else c :: before sep rest
  end.

(** [s.replace(/\/$/, '')]: one trailing slash is dropped. *)
Fixpoint strip_trailing_slash (s : jsstring) : jsstring :=
  match s with
  | [] => []
  | [c] => if (c =? 47)%N then [] else [c]
  | c :: rest => c :: strip_trailing_slash rest
  end.

(** [contains s t]: [t] occurs in [s] as a contiguous run of code units. *)
Definition contains (s t : jsstring) : Prop :=
  exists pre post, s = pre ++ t ++ post.

(** ** Numbers *)

Module Num.

(** A number is a binary64 value, held in the form the Standard Library
    specifies primitive floats with: a zero or an infinity with its sign,
    NaN, or a signed mantissa and exponent [m * 2^e].  [lit] reads a
    literal. *)
Definition number : Type := spec_float.

Definition lit (x : float) : number := Prim2SF x.

Definition zero : number := S754_zero false.

Definition one : number := lit 1.

(** A positive integer as a number, with the mantissa brought to 53 bits.
    The value is exact below [2^53], which bounds the length of arrays and
    strings; above, bits that do not fit are dropped. *)
Definition of_pos (s : bool) (p : positive) : number :=
  let d := Zpos (digits2_pos p) in
  S754_finite s (Z.to_pos (Z.shiftl (Zpos p) (53 - d))) (d - 53).

Definition of_Z (z : Z) : number :=
  match z with
  | Z0 => zero
  | Zpos p => of_pos false p
  | Zneg p => of_pos true p
  end.

Definition of_N (n : N) : number := of_Z (Z.of_N n).

Definition of_nat (n : nat) : number := of_Z (Z.of_nat n).

(** [x * y], [x <= y]. *)
Definition mul (x y : number) : number := SFmul prec emax x y.

Definition leb (x y : number) : bool := SFleb x y.

(** The real number a finite binary64 value [m * 2^e] stands for. *)
Definition exact (m : positive) (e : Z) : Q :=
  (inject_Z (Zpos m) * Qpower 2 e)%Q.

Definition Qltb (a b : Q) : bool :=
  match Qcompare a b with
  | Lt => true
  | _ => false
  end.

(** [Math.round]: the closest integer, a tie going towards plus infinity;
    NaN, the infinities, the zeros and integers are returned as they are,
    and a negative argument no smaller than -0.5 gives -0. *)
Definition Math_round (x : number) : number :=
  match x with
  | S754_finite s m e =>
      if (0 <=? e)%Z then x
      else
        let v := if s then Qopp (exact m e) else exact m e in
        let n := Qfloor (v + (1 # 2))%Q in
        if (n =? 0)%Z then S754_zero s else of_Z n
  | _ => x
  end.

(** *** [Number::toString] (radix 10) *)

Fixpoint uint_units (u : Decimal.uint) : jsstring :=
  match u with
  | Decimal.Nil => []
  | Decimal.D0 r => 48%N :: uint_units r
  | Decimal.D1 r => 49%N :: uint_units r
  | Decimal.D2 r => 50%N :: uint_units r
  | Decimal.D3 r => 51%N :: uint_units r
  | Decimal.D4 r => 52%N :: uint_units r
  | Decimal.D5 r => 53%N :: uint_units r
  | Decimal.D6 r => 54%N :: uint_units r
  | Decimal.D7 r => 55%N :: uint_units r
  | Decimal.D8 r => 56%N :: uint_units r
  | Decimal.D9 r => 57%N :: uint_units r
  end.

(** Decimal digits of a non-negative integer. *)
Definition digits (z : Z) : jsstring := uint_units (N.to_uint (Z.to_N z)).

Definition zeros (n : Z) : jsstring := repeat 48%N (Z.to_nat n).

(** The reals that round to [m * 2^e]: strictly between the midpoints to
    the two neighbours, the midpoints included when the mantissa is even. *)
Record interval : Type := { lo : Q; hi : Q; closed : bool }.

Definition rounding_interval (m : positive) (e : Z) : interval :=
  {| lo := if (Zpos m =? 2 ^ 52)%Z && (-1074 <? e)%Z
           then exact (4 * m - 1) (e - 2)
           else exact (2 * m - 1) (e - 1);
     hi := exact (2 * m + 1) (e - 1);
     closed := Z.even (Zpos m) |}.

Definition inside (i : interval) (v : Q) : bool :=
  match Qcompare (lo i) v, Qcompare v (hi i) with
  | Lt, Lt => true
  | Eq, _ => closed i
  | _, Eq => closed i
  | _, _ => false
  end.

Definition pow10 (t : Z) : Q := Qpower (10 # 1) t.

(** The least [n] with [x < 10^n]; [p] is [10^n].  A positive binary64
    value lies between [10^-324] and [10^309]. *)
Fixpoint decade_from (fuel : nat) (n : Z) (p x : Q) : Z :=
  match fuel with
  | O => n
  | S f => if Qltb x p then n else decade_from f (n + 1) (p * (10 # 1))%Q x
  end.

Definition decade (x : Q) : Z := decade_from 640 (-324) (pow10 (-324)) x.

(** A candidate is a pair [(n, s)] standing for [s * 10^(n-k)], with [s]
    of [k] digits; [n0] is the decade of [x]. *)
Definition candidates (x : Q) (i : interval) (n0 k : Z) : list (Z * Z) :=
  flat_map
    (fun n =>
       let t := (n - k)%Z in
       let f := Qfloor (x / pow10 t)%Q in
       filter
         (fun c : Z * Z =>
            (10 ^ (k - 1) <=? snd c)%Z && (snd c <? 10 ^ k)%Z
            && inside i (inject_Z (snd c) * pow10 t)%Q)
         [(n, f); (n, (f + 1)%Z)])
    [(n0 - 1)%Z; n0; (n0 + 1)%Z].

Definition distance (x : Q) (k : Z) (c : Z * Z) : Q :=
  Qabs (inject_Z (snd c) * pow10 (fst c - k) - x)%Q.

(** Among the candidates of one length, the closest to [x]; of two equally
    close, the one with the even last digit. *)
Definition closer (x : Q) (k : Z) (a b : Z * Z) : Z * Z :=
  match Qcompare (distance x k a) (distance x k b) with
  | Lt => a
  | Gt => b
  | Eq => if Z.even (snd a) then a else b
  end.

Definition closest (x : Q) (k : Z) (cs : list (Z * Z)) : option (Z * Z) :=
  match cs with
  | [] => None
  | c :: rest => Some (fold_left (closer x k) rest c)
  end.

(** The shortest digit string [s] (of [k] digits) that reads back as [x]:
    lengths are tried in increasing order.  Seventeen digits identify any
    binary64 value, so the search ends before the fuel does. *)
Fixpoint shortest (fuel : nat) (k : Z) (x : Q) (i : interval) (n0 : Z)
  : Z * Z * Z :=
  match fuel with
  | O => (n0, k, Qfloor (x / pow10 (n0 - k))%Q)
  | S f =>
      match closest x k (candidates x i n0 k) with
      | Some (n, s) => (n, k, s)
      | None => shortest f (k + 1)%Z x i n0
      end
  end.

Definition split_at (n : Z) (s : jsstring) : jsstring * jsstring :=
  (take (Z.to_nat n) s, drop (Z.to_nat n) s).

Definition exponent_part (n : Z) : jsstring :=
  let e := (n - 1)%Z in
  101%N :: (if (0 <=? e)%Z then 43%N else 45%N) :: digits (Z.abs e).

Definition render (n k s : Z) : jsstring :=
  let ds := digits s in
  if (-5 <=? n)%Z && (n <=? 21)%Z then
    if (k <=? n)%Z then ds ++ zeros (n - k)
    else if (0 <? n)%Z then
      fst (split_at n ds) ++ 46%N :: snd (split_at n ds)
    else 48%N :: 46%N :: zeros (- n) ++ ds
  else
    if (k =? 1)%Z then ds ++ exponent_part n
    else fst (split_at 1 ds) ++ 46%N :: snd (split_at 1 ds) ++ exponent_part n.

Definition toString (x : number) : jsstring :=
  match x with
  | S754_nan => js "NaN"
  | S754_zero _ => js "0"
  | S754_infinity s => if s then js "-Infinity" else js "Infinity"
  | S754_finite s m e =>
      let '(n, k, d) :=
        shortest 17 1 (exact m e) (rounding_interval m e) (decade (exact m e)) in
      (if s then [45%N] else []) ++ render n k d
  end.

End Num.

(** ** Values, exceptions and property access *)

(** The values the code handles: what [JSON.parse] builds, and [undefined],
    which reading a missing property yields.  An object is the finite map of
    its own properties. *)
Inductive value : Type :=
| VUndef
| VNull
| VBool (b : bool)
| VNum (n : Num.number)
| VStr (s : jsstring)
| VArr (items : list value)
| VObj (props : gmap jsstring value).

(** Why the engine or the browser raised a [TypeError]. *)
Inductive type_error : Type :=
| NullishAccess    (* a property of null or undefined was read *)
| NotCallable      (* a value that is not a function was called *)
| NoPrimitive      (* an object could not be turned into a primitive *)
| BodyUsed         (* a response body was read a second time *)
| NotABlob         (* FormData.append was given a file part that is no Blob *)
| NotAnImage       (* drawImage was given no image source *)
| NetworkFailure.  (* fetch could not reach the server *)

Inductive exn : Type :=
| TypeError (why : type_error)
| SyntaxError
| Error (message : jsstring).

(** A computation returns normally or throws. *)
Inductive completion (A : Type) : Type :=
| Return (a : A)
| Throw (e : exn).

Arguments Return {A} a.
Arguments Throw {A} e.

Definition bind {A B : Type} (c : completion A) (k : A -> completion B)
  : completion B :=
  match c with
  | Return a => k a
  | Throw e => Throw e
  end.

Declare Scope js_scope.
Delimit Scope js_scope with js.
Notation "x <- c ;; k" := (bind c (fun x => k))
  (at level 100, c at next level, right associativity) : js_scope.

Definition returns {A : Type} (c : completion A) : Prop :=
  exists a, c = Return a.

Definition nullish (v : value) : bool :=
  match v with
  | VUndef | VNull => true
  | _ => false
  end.

(** [v ? ... : ...] and [!v]: the truth value of [v]. *)
Definition truthy (v : value) : bool :=
  match v with
  | VUndef | VNull => false
  | VBool b => b
  | VNum (S754_zero _) | VNum S754_nan => false
  | VNum _ => true
  | VStr s => negb (bool_decide (s = []))
  | VArr _ | VObj _ => true
  end.

(** Number of code units of a string, elements of an array. *)
Definition lengthOf {A : Type} (l : list A) : value :=
  VNum (Num.of_nat (length l)).

(** [v.k] for a property name [k].  The names the code reads are names of
    no built-in prototype, so a value without the own property gives
    [undefined]; [length] is an own property of strings and arrays.  An
    index is read with [item0]. *)
Definition get (v : value) (k : jsstring) : completion value :=
  match v with
  | VUndef | VNull => Throw (TypeError NullishAccess)
  | VBool _ | VNum _ => Return VUndef
  | VStr s => Return (if bool_decide (k = js "length") then lengthOf s else VUndef)
  | VArr items =>
      Return (if bool_decide (k = js "length") then lengthOf items else VUndef)
  | VObj props => Return (default VUndef (props !! k))
  end.

(** [v[0]]. *)
Definition item0 (v : value) : completion value :=
  match v with
  | VUndef | VNull => Throw (TypeError NullishAccess)
  | VBool _ | VNum _ => Return VUndef
  | VStr s => Return (match s with [] => VUndef | c :: _ => VStr [c] end)
  | VArr items => Return (default VUndef (head items))
  | VObj props => Return (default VUndef (props !! js "0"))
  end.

(** [v?.k] and [v?.[0]]: [undefined] when [v] is null or undefined. *)
Definition get_opt (v : value) (k : jsstring) : completion value :=
  if nullish v then Return VUndef else get v k.

Definition item0_opt (v : value) : completion value :=
  if nullish v then Return VUndef else item0 v.

(** [a ?? b]: [b] is evaluated only when [a] is null or undefined. *)
Definition coalesce (a : value) (b : completion value) : completion value :=
  if nullish a then b else Return a.

(** ** The host platform

    Three operations of the engine are tables or parsers of their own, and
    stay parameters: upper-casing a string that has a code unit outside
    ASCII, the number a string denotes ([Number("12.5")]), and
    [JSON.stringify].  The message of a native error is the browser's. *)
Class Platform : Type := {
  toUpperCase_unicode : jsstring -> jsstring;
  StringToNumber : jsstring -> Num.number;
  JSON_stringify : value -> jsstring;
  native_message : type_error -> jsstring;
  syntax_message : jsstring
}.

Section Conversions.

Context `{Platform}.

Local Open Scope js_scope.

(** [s.toUpperCase()]. *)
Definition toUpperCase (s : jsstring) : jsstring :=
  if forallb is_ascii s then map ascii_upper s else toUpperCase_unicode s.

(** [Array.prototype.join] with separator [","] over already converted
    elements. *)
Fixpoint join_comma (parts : list jsstring) : jsstring :=
  match parts with
  | [] => []
  | [p] => p
  | p :: rest => p ++ 44%N :: join_comma rest
  end.

(** [String(v)], as a template literal or [+] applies it.  An array joins
    its elements, null and undefined elements counting as empty; an object
    prints as [[object Object]] unless an own [toString] property, which
    coming from JSON is no function, hides the inherited method. *)
Fixpoint ToString (v : value) : completion jsstring :=
  match v with
  | VUndef => Return (js "undefined")
  | VNull => Return (js "null")
  | VBool b => Return (if b then js "true" else js "false")
  | VNum n => Return (Num.toString n)
  | VStr s => Return s
  | VArr items =>
      parts <- (fix each (vs : list value) : completion (list jsstring) :=
                  match vs with
                  | [] => Return []
                  | x :: rest =>
                      p <- (if nullish x then Return [] else ToString x) ;;
                      ps <- each rest ;;
                      Return (p :: ps)
                  end) items ;;
      Return (join_comma parts)
  | VObj props =>
      match props !! js "toString" with
      | Some _ => Throw (TypeError NoPrimitive)
      | None => Return (js "[object Object]")
      end
  end.

(** [Number(v)]. *)
Definition ToNumber (v : value) : completion Num.number :=
  match v with
  | VUndef => Return S754_nan
  | VNull => Return Num.zero
  | VBool b => Return (if b then Num.one else Num.zero)
  | VNum n => Return n
  | VStr s => Return (StringToNumber s)
  | VArr _ | VObj _ => s <- ToString v ;; Return (StringToNumber s)
  end.

(** [err.message]. *)
Definition message_of (e : exn) : jsstring :=
  match e with
  | TypeError why => native_message why
  | SyntaxError => syntax_message
  | Error m => m
  end.

End Conversions.

(** ** The state store ([src/lib/state.ts]) *)

Module State.

Inductive Status : Type := idle | loading | requestDone | error.

#[global] Instance Status_eq_dec : EqDecision Status := ltac:(solve_decision).

Record DetectionResult : Type := {
  detectedLetter : jsstring;
  confidenceNum : Num.number;
  handDetected : jsstring
}.

(** [result] is [undefined] or a result, [errorMessage] is [null] or a
    string: [None] stands for the absent value of each. *)
Record AppStateShape : Type := {
  status : Status;
  result : option DetectionResult;
  errorMessage : option jsstring
}.

(** The page holds the one [state] object, and [window] receives the
    [stateChange] events.  An event carries the state object itself and is
    delivered at once, so a listener sees the state as it is at the moment
    of the dispatch: that value is what the log keeps, oldest first. *)
Record Store : Type := {
  state : AppStateShape;
  dispatched : list AppStateShape
}.

Definition initial : AppStateShape :=
  {| status := idle; result := None; errorMessage := None |}.

Definition fresh : Store := {| state := initial; dispatched := [] |}.

Definition dispatchStateChange (s : Store) : Store :=
  {| state := state s; dispatched := dispatched s ++ [state s] |}.

Module AppState.

Definition getState (s : Store) : AppStateShape := state s.

Definition getStatus (s : Store) : Status := status (state s).

Definition setStatus (next : Status) (s : Store) : Store :=
  if bool_decide (next = status (state s)) then s
  else
    dispatchStateChange
      {| state := {| status := next;
                     result := result (state s);
                     errorMessage := errorMessage (state s) |};
         dispatched := dispatched s |}.

Definition setResult (r : option DetectionResult) (s : Store) : Store :=
  dispatchStateChange
    {| state := {| status := status (state s);
                   result := r;
                   errorMessage := errorMessage (state s) |};
       dispatched := dispatched s |}.

Definition setError (message : option jsstring) (s : Store) : Store :=
  dispatchStateChange
    {| state := {| status := error;
                   result := result (state s);
                   errorMessage := message |};
       dispatched := dispatched s |}.

Definition reset (s : Store) : Store :=
  dispatchStateChange
    {| state := {| status := idle; result := None; errorMessage := None |};
       dispatched := dispatched s |}.

End AppState.

(** One call of a mutating operation of the store. *)
Inductive Op : Type :=
| SetStatus (next : Status)
| SetResult (r : option DetectionResult)
| SetError (message : option jsstring)
| Reset.

Definition call (o : Op) (s : Store) : Store :=
  match o with
  | SetStatus next => AppState.setStatus next s
  | SetResult r => AppState.setResult r s
  | SetError message => AppState.setError message s
  | Reset => AppState.reset s
  end.

Definition run (ops : list Op) (s : Store) : Store :=
  fold_left (fun s o => call o s) ops s.

(** The stores passed through by a run, the starting one first. *)
Fixpoint visited (ops : list Op) (s : Store) : list Store :=
  match ops with
  | [] => [s]
  | o :: rest => s :: visited rest (call o s)
  end.

(** The invariant of the data model: an error message implies the error
    status. *)
Definition consistent (a : AppStateShape) : Prop :=
  errorMessage a <> None -> status a = error.

(** A call that cannot break [consistent]: any call other than a
    [setStatus] that leaves the error status while a message is set. *)
Definition keeps_status_of_error (o : Op) (s : Store) : bool :=
  match o with
  | SetStatus next =>
      bool_decide (next = error) || bool_decide (errorMessage (state s) = None)
  | _ => true
  end.

Fixpoint guarded (ops : list Op) (s : Store) : bool :=
  match ops with
  | [] => true
  | o :: rest => keeps_status_of_error o s && guarded rest (call o s)
  end.

(** The statuses carried by the events a run adds to the log. *)
Definition notified (ops : list Op) (s : Store) : list Status :=
  map status (drop (length (dispatched s)) (dispatched (run ops s))).

(** No two neighbours of a list are equal. *)
Fixpoint changing (l : list Status) : Prop :=
  match l with
  | a :: (b :: _) as rest => a <> b /\ changing rest
  | _ => True
  end.

End State.

(** ** The snapshot flow ([src/scripts/video-processing.js]) *)

Module VideoProcessing.

(** *** The response of the inference server *)

(** The derived record [extractDetectionData] returns.  [detectedLetter] is
    whatever value the response holds under [detected_as]. *)
Record Detection : Type := {
  detectedLetter : value;
  confidenceNum : Num.number;
  confidencePct : jsstring;
  handDetected : jsstring
}.

Section Extraction.

Context `{Platform}.

Local Open Scope js_scope.

(** [handRaw.charAt(0).toUpperCase() + handRaw.slice(1)]: only a string
    has the two methods. *)
Definition capitalize (handRaw : value) : completion jsstring :=
  match handRaw with
  | VStr s => Return (toUpperCase (charAt0 s) ++ slice1 s)
  | _ => Throw (TypeError NotCallable)
  end.

(** [record?.metadata?.landmarks?.[side]?.length]. *)
Definition landmarkCount (record : value) (side : jsstring) : completion value :=
  m <- get_opt record (js "metadata") ;;
  l <- get_opt m (js "landmarks") ;;
  s <- get_opt l side ;;
  get_opt s (js "length").

Definition extractDetectionData (record : value) : completion Detection :=
  d <- get record (js "detected_as") ;;
  detectedLetter <-
    coalesce d (p <- get record (js "predicted_as") ;;
                coalesce p (Return (VStr (js "-")))) ;;
  c <- get record (js "confidence") ;;
  c0 <- coalesce c (Return (VNum Num.zero)) ;;
  confidenceNum <- ToNumber c0 ;;
  m <- get_opt record (js "metadata") ;;
  h <- get_opt m (js "handedness") ;;
  h0 <- item0_opt h ;;
  handRaw <-
    coalesce h0
      (r <- landmarkCount record (js "right") ;;
       if truthy r then Return (VStr (js "right"))
       else
         l <- landmarkCount record (js "left") ;;
         if truthy l then Return (VStr (js "left")) else Return VNull) ;;
  handDetected <-
    (if truthy handRaw then capitalize handRaw else Return (js "—")) ;;
  let confidencePct :=
    Num.toString (Num.Math_round (Num.mul confidenceNum (Num.lit 100)))
    ++ js "%" in
  Return {| detectedLetter := detectedLetter;
            confidenceNum := confidenceNum;
            confidencePct := confidencePct;
            handDetected := handDetected |}.

End Extraction.

(** *** HTTP responses *)

(** A response has no body at all, or a stream that can be read once.  The
    stream is given by its text together with what [JSON.parse] makes of
    that text ([None]: the text is no JSON). *)
Inductive Body : Type :=
| NoBody
| Stream (text : jsstring) (parsed : option value).

Record Response : Type := {
  status : N;
  body : Body;
  bodyUsed : bool
}.

(** [response.ok]. *)
Definition ok (r : Response) : bool := (200 <=? status r)%N && (status r <=? 299)%N.

Definition consumed (r : Response) : Response :=
  {| status := status r; body := body r; bodyUsed := true |}.

(** [await response.json()] and [await response.text()]: the outcome and the
    response object afterwards.  Reading a stream that was read before
    rejects with a [TypeError]; an absent body reads as empty. *)
Definition json (r : Response) : completion value * Response :=
  match body r with
  | NoBody => (Throw SyntaxError, r)
  | Stream _ parsed =>
      if bodyUsed r then (Throw (TypeError BodyUsed), r)
      else (match parsed with
            | Some v => Return v
            | None => Throw SyntaxError
            end, consumed r)
  end.

Definition text (r : Response) : completion jsstring * Response :=
  match body r with
  | NoBody => (Return [], r)
  | Stream t _ =>
      if bodyUsed r then (Throw (TypeError BodyUsed), r)
      else (Return t, consumed r)
  end.

Section Errors.

Context `{Platform}.

Local Open Scope js_scope.

(** [`HTTP ${response.status}`]. *)
Definition statusLine (response : Response) : jsstring :=
  js "HTTP " ++ Num.toString (Num.of_N (status response)).

(** The body of the [try] block of [handleServerError], after the payload
    was parsed. *)
Definition describe (payload : value) : completion jsstring :=
  d <- get payload (js "detail") ;;
  v <- coalesce d (Return (VStr (JSON_stringify payload))) ;;
  ToString v.

(** [handleServerError] ends in a [throw] on every path that completes:
    the outcome is never a normal return. *)
Definition handleServerError (response : Response) : completion unit * Response :=
  let errorDetail := statusLine response in
  let (payload, response1) := json response in
  match p <- payload ;; describe p with
  | Return detail => (Throw (Error (errorDetail ++ js ": " ++ detail)), response1)
  | Throw _ =>
      let (t, response2) := text response1 in
      (raw <- t ;; Throw (Error (errorDetail ++ js ": " ++ raw)), response2)
  end.

End Errors.

(** *** The page *)

(** A picture: a video frame, or what a canvas shows. *)
Definition Frame : Type := N.

Record Canvas : Type := {
  width : N;
  height : N;
  picture : option Frame
}.

(** A PNG blob of a picture. *)
Record Blob : Type := { png : option Frame }.

Record Request : Type := {
  url : jsstring;
  method : jsstring;
  image : Blob;
  filename : jsstring;
  label : jsstring
}.

(** [window.MSL_STATE]. *)
Record Snapshot : Type := {
  lastDetectedLetter : value;
  lastConfidenceNum : Num.number;
  lastConfidencePct : jsstring;
  lastHand : jsstring
}.

Inductive ConsoleLine : Type :=
| Log (what : jsstring) (v : value)
| ErrorLine (what : jsstring) (message : jsstring).

(** Everything the click handler can read or change.  An element of the page
    is [None] when the document has no element of that id; [video] and
    [offscreen] are the module's variables, [None] until
    [enableVideoProcessing] has set them. *)
Record World : Type := {
  checked : option jsstring;          (* value of the checked radio named letter *)
  video : option Frame;               (* the frame the video element shows *)
  offscreen : option Canvas;
  requests : list Request;            (* requests sent, oldest first *)
  alerts : list jsstring;
  console : list ConsoleLine;
  MSL_STATE : option Snapshot;
  resultLetter : option jsstring;     (* textContent of the three result elements *)
  resultConfidence : option jsstring;
  resultHand : option jsstring;
  appState : State.Store
}.

(** What the handler gets from outside the page. *)
Record Outside : Type := {
  PUBLIC_API_URL : option jsstring;        (* import.meta.env.PUBLIC_API_URL *)
  randomUUID : jsstring;                   (* the next crypto.randomUUID() *)
  server : Request -> completion Response  (* how a fetch of the request ends *)
}.

(** An action on the page: it returns or throws, and leaves a world. *)
Definition Action (A : Type) : Type := World -> completion A * World.

Definition ret {A : Type} (a : A) : Action A := fun w => (Return a, w).

Definition lift {A : Type} (c : completion A) : Action A := fun w => (c, w).

Definition andThen {A B : Type} (c : Action A) (k : A -> Action B) : Action B :=
  fun w =>
    match c w with
    | (Return a, w1) => k a w1
    | (Throw e, w1) => (Throw e, w1)
    end.

Declare Scope page_scope.
Delimit Scope page_scope with page.
Notation "x <- c ;; k" := (andThen c (fun x => k))
  (at level 100, c at next level, right associativity) : page_scope.

(** Field updates of the world. *)
Definition with_offscreen (c : option Canvas) (w : World) : World :=
  {| checked := checked w; video := video w; offscreen := c;
     requests := requests w; alerts := alerts w; console := console w;
     MSL_STATE := MSL_STATE w; resultLetter := resultLetter w;
     resultConfidence := resultConfidence w; resultHand := resultHand w;
     appState := appState w |}.

Definition with_requests (rs : list Request) (w : World) : World :=
  {| checked := checked w; video := video w; offscreen := offscreen w;
     requests := rs; alerts := alerts w; console := console w;
     MSL_STATE := MSL_STATE w; resultLetter := resultLetter w;
     resultConfidence := resultConfidence w; resultHand := resultHand w;
     appState := appState w |}.

Definition with_alerts (a : list jsstring) (w : World) : World :=
  {| checked := checked w; video := video w; offscreen := offscreen w;
     requests := requests w; alerts := a; console := console w;
     MSL_STATE := MSL_STATE w; resultLetter := resultLetter w;
     resultConfidence := resultConfidence w; resultHand := resultHand w;
     appState := appState w |}.

Definition with_console (c : list ConsoleLine) (w : World) : World :=
  {| checked := checked w; video := video w; offscreen := offscreen w;
     requests := requests w; alerts := alerts w; console := c;
     MSL_STATE := MSL_STATE w; resultLetter := resultLetter w;
     resultConfidence := resultConfidence w; resultHand := resultHand w;
     appState := appState w |}.

Definition with_MSL_STATE (m : option Snapshot) (w : World) : World :=
  {| checked := checked w; video := video w; offscreen := offscreen w;
     requests := requests w; alerts := alerts w; console := console w;
     MSL_STATE := m; resultLetter := resultLetter w;
     resultConfidence := resultConfidence w; resultHand := resultHand w;
     appState := appState w |}.

Definition with_resultLetter (t : option jsstring) (w : World) : World :=
  {| checked := checked w; video := video w; offscreen := offscreen w;
     requests := requests w; alerts := alerts w; console := console w;
     MSL_STATE := MSL_STATE w; resultLetter := t;
     resultConfidence := resultConfidence w; resultHand := resultHand w;
     appState := appState w |}.

Definition with_resultConfidence (t : option jsstring) (w : World) : World :=
  {| checked := checked w; video := video w; offscreen := offscreen w;
     requests := requests w; alerts := alerts w; console := console w;
     MSL_STATE := MSL_STATE w; resultLetter := resultLetter w;
     resultConfidence := t; resultHand := resultHand w;
     appState := appState w |}.

Definition with_resultHand (t : option jsstring) (w : World) : World :=
  {| checked := checked w; video := video w; offscreen := offscreen w;
     requests := requests w; alerts := alerts w; console := console w;
     MSL_STATE := MSL_STATE w; resultLetter := resultLetter w;
     resultConfidence := resultConfidence w; resultHand := t;
     appState := appState w |}.

(** [CONFIG.API_URL]: the configured address, or the local one when the
    setting is undefined or empty, without its trailing slash. *)
Definition API_URL (o : Outside) : jsstring :=
  strip_trailing_slash
    match PUBLIC_API_URL o with
    | Some (c :: rest) => c :: rest
    | _ => js "http://127.0.0.1:8000"
    end.

(** [selected?.value || null]: the value of the checked radio; no checked
    radio, or one with an empty value, gives [null]. *)
Definition getSelectedLetter (w : World) : option jsstring :=
  match checked w with
  | Some (c :: rest) => Some (c :: rest)
  | _ => None
  end.

Definition alert (message : jsstring) : Action unit :=
  fun w => (Return tt, with_alerts (alerts w ++ [message]) w).

Definition console_log (what : jsstring) (v : value) : Action unit :=
  fun w => (Return tt, with_console (console w ++ [Log what v]) w).

Definition console_error (what message : jsstring) : Action unit :=
  fun w => (Return tt, with_console (console w ++ [ErrorLine what message]) w).

(** [fetch(endpoint, {method: 'POST', body: formData})]: the request goes
    out, and the promise settles as the server decides. *)
Definition fetch (o : Outside) (request : Request) : Action Response :=
  fun w => (server o request, with_requests (requests w ++ [request]) w).

(** The current video frame is drawn on the offscreen canvas, which is then
    encoded; [toBlob] hands over [null] for a canvas without pixels. *)
Definition captureVideoFrame : Action (option Blob) :=
  fun w =>
    match offscreen w with
    | None => (Throw (TypeError NullishAccess), w)
    | Some canvas =>
        match video w with
        | None => (Throw (TypeError NotAnImage), w)
        | Some frame =>
            let drawn := {| width := width canvas; height := height canvas;
                            picture := Some frame |} in
            (Return (if (width canvas =? 0)%N || (height canvas =? 0)%N
                     then None
                     else Some {| png := picture drawn |}),
             with_offscreen (Some drawn) w)
        end
    end.

Section Flow.

Context `{Platform}.

Local Open Scope page_scope.

Definition sendImageToServer (o : Outside) (blob : option Blob) (letter : jsstring)
  : Action Response :=
  let endpoint := API_URL o ++ js "/process/" in
  let name := letter ++ js "_" ++ before 45%N (randomUUID o) ++ js ".png" in
  file <- lift (match blob with
                | Some b => Return b
                | None => Throw (TypeError NotABlob)
                end) ;;
  response <- fetch o {| url := endpoint; method := js "POST"; image := file;
                         filename := name; label := letter |} ;;
  if ok response then ret response
  else
    _ <- lift (fst (handleServerError response)) ;;
    ret response.

Definition processServerResponse (response : Response) : Action Detection :=
  record <- lift (fst (json response)) ;;
  _ <- console_log (js "✅ Detected hands—metadata:") record ;;
  lift (extractDetectionData record).

(** [element.textContent = text] when the element exists. *)
Definition show (element : World -> option jsstring)
    (update : option jsstring -> World -> World)
    (text : completion jsstring) : Action unit :=
  fun w =>
    match element w with
    | None => (Return tt, w)
    | Some _ =>
        match text with
        | Return t => (Return tt, update (Some t) w)
        | Throw e => (Throw e, w)
        end
    end.

Definition updateResultsUI (result : Detection) : Action unit :=
  _ <- (fun w =>
          (Return tt,
           with_MSL_STATE
             (Some {| lastDetectedLetter := detectedLetter result;
                      lastConfidenceNum := confidenceNum result;
                      lastConfidencePct := confidencePct result;
                      lastHand := handDetected result |}) w)) ;;
  _ <- show resultLetter with_resultLetter
         (bind (ToString (detectedLetter result))
               (fun s => Return (js "Letter detected: " ++ s))) ;;
  _ <- show resultConfidence with_resultConfidence
         (Return (js "Confidence: " ++ confidencePct result)) ;;
  show resultHand with_resultHand
    (Return (js "Hand detected: " ++ handDetected result)).

(** The listener [captureSnapshot] installs on the capture button. *)
Definition captureSnapshot (o : Outside) (w : World) : World :=
  match getSelectedLetter w with
  | None => snd (alert (js "Please select a letter before capturing.") w)
  | Some letter =>
      match (blob <- captureVideoFrame ;;
             response <- sendImageToServer o blob letter ;;
             detectionResult <- processServerResponse response ;;
             updateResultsUI detectionResult) w with
      | (Return _, w1) => w1
      | (Throw err, w1) =>
          snd (console_error (js "Error during capture:") (message_of err) w1)
      end
  end.

End Flow.

End VideoProcessing.

(** ** Success responses

    The fields [extractDetectionData] reads, with the types the server gives
    them: a letter under [detected_as] or [predicted_as], a numeric
    [confidence], and [metadata] holding a list of [handedness] strings and
    the [left] and [right] landmark arrays.  Each field may be missing, or
    present with the value [null].  An object may carry any further
    properties, under names the code does not read. *)

Module Wire.

Inductive field (A : Type) : Type :=
| Absent
| Null
| Given (a : A).

Arguments Absent {A}.
Arguments Null {A}.
Arguments Given {A} a.

Record Landmarks : Type := {
  left : field (list value);
  right : field (list value);
  landmarks_rest : gmap jsstring value
}.

Record Metadata : Type := {
  handedness : field (list jsstring);
  landmarks : field Landmarks;
  metadata_rest : gmap jsstring value
}.

Record SuccessRecord : Type := {
  detected_as : field jsstring;
  predicted_as : field jsstring;
  confidence : field Num.number;
  metadata : field Metadata;
  rest : gmap jsstring value
}.

(** The value read from a field. *)
Definition read {A : Type} (f : A -> value) (x : field A) : value :=
  match x with
  | Absent => VUndef
  | Null => VNull
  | Given a => f a
  end.

(** The own property a field contributes to its object: the name is bound
    to the value of the field, and unbound when the field is missing. *)
Definition put {A : Type} (k : string) (f : A -> value) (x : field A)
    (props : gmap jsstring value) : gmap jsstring value :=
  match x with
  | Absent => delete (js k) props
  | Null => <[js k := VNull]> props
  | Given a => <[js k := f a]> props
  end.

Definition of_landmarks (l : Landmarks) : value :=
  VObj (put "left" VArr (left l)
          (put "right" VArr (right l) (landmarks_rest l))).

Definition of_metadata (m : Metadata) : value :=
  VObj (put "handedness" (fun hs => VArr (map VStr hs)) (handedness m)
          (put "landmarks" of_landmarks (landmarks m) (metadata_rest m))).

(** The object [JSON.parse] builds from the response. *)
Definition parse (r : SuccessRecord) : value :=
  VObj (put "detected_as" VStr (detected_as r)
          (put "predicted_as" VStr (predicted_as r)
             (put "confidence" VNum (confidence r)
                (put "metadata" of_metadata (metadata r) (rest r))))).

(** The elements of a list field, none when the field is missing or null. *)
Definition entries {A : Type} (x : field (list A)) : list A :=
  match x with
  | Given l => l
  | _ => []
  end.

Definition metadata_of (r : SuccessRecord) : Metadata :=
  match metadata r with
  | Given m => m
  | _ => {| handedness := Absent; landmarks := Absent; metadata_rest := ∅ |}
  end.

Definition landmarks_of (r : SuccessRecord) : Landmarks :=
  match landmarks (metadata_of r) with
  | Given l => l
  | _ => {| left := Absent; right := Absent; landmarks_rest := ∅ |}
  end.

(** The explicit handedness entries, and the per-side landmark lists. *)
Definition handedness_entries (r : SuccessRecord) : list jsstring :=
  entries (handedness (metadata_of r)).

Definition left_landmarks (r : SuccessRecord) : list value :=
  entries (left (landmarks_of r)).

Definition right_landmarks (r : SuccessRecord) : list value :=
  entries (right (landmarks_of r)).

(** A field that is present with a value other than [null]. *)
Definition given {A : Type} (x : field A) : bool :=
  match x with
  | Given _ => true
  | _ => false
  end.

(** The confidence lies in the closed interval from 0 to 1. *)
Definition unit_interval (x : Num.number) : bool :=
  Num.leb Num.zero x && Num.leb x Num.one.

(** *** The typed reading

    What the derived record holds, read off the typed response: the
    letter, the confidence, the raw hand side ([None] for [null]) and its
    capitalised form.  [extract_parse] below proves that
    [extractDetectionData] computes exactly this on the parsed object. *)
Definition letter (r : SuccessRecord) : value :=
  match detected_as r with
  | Given d => VStr d
  | _ =>
      match predicted_as r with
      | Given p => VStr p
      | _ => VStr (js "-")
      end
  end.

Definition confidence_or_zero (r : SuccessRecord) : Num.number :=
  match confidence r with
  | Given c => c
  | _ => Num.zero
  end.

Definition nonempty {A : Type} (l : list A) : bool :=
  match l with
  | [] => false
  | _ :: _ => true
  end.

Definition side (r : SuccessRecord) : option jsstring :=
  match handedness_entries r with
  | h :: _ => Some h
  | [] =>
      if nonempty (right_landmarks r) then Some (js "right")
      else if nonempty (left_landmarks r) then Some (js "left")
      else None
  end.

Definition hand `{Platform} (r : SuccessRecord) : jsstring :=
  match side r with
  | Some (c :: rest) => toUpperCase [c] ++ rest
  | _ => js "—"
  end.

Definition derived `{Platform} (r : SuccessRecord) : VideoProcessing.Detection :=
  {| VideoProcessing.detectedLetter := letter r;
     VideoProcessing.confidenceNum := confidence_or_zero r;
     VideoProcessing.confidencePct :=
       Num.toString
         (Num.Math_round (Num.mul (confidence_or_zero r) (Num.lit 100)))
       ++ js "%";
     VideoProcessing.handDetected := hand r |}.

End Wire.

(** ** A host for concrete runs

    The statements below are proved for every platform.  Where a function is
    run on a concrete input, the platform is this one; the inputs are ASCII
    strings and numeric confidences, so none of its tables is consulted. *)
Definition plain_host : Platform :=
  {| toUpperCase_unicode := fun s => s;
     StringToNumber := fun _ => S754_nan;
     JSON_stringify := fun _ => [];
     native_message := fun _ => [];
     syntax_message := [] |}.

(** ** Sample inputs *)

Module Sample.

Import Wire VideoProcessing.

(** [{detected_as: "A", confidence: 0.873, metadata: {handedness: ["right"]}}] *)
Definition right_hand_A : value :=
  VObj (<[js "detected_as" := VStr (js "A")]>
          (<[js "confidence" := VNum (Num.lit 0.873)]>
             (<[js "metadata" :=
                  VObj (<[js "handedness" := VArr [VStr (js "right")]]> ∅)]>
                ∅))).

(** A landmark point, [[0.5, 0.25, 0]]. *)
Definition point : value :=
  VArr [VNum (Num.lit 0.5); VNum (Num.lit 0.25); VNum Num.zero].

(** [{detected_as: "B", confidence: 0.5, success: true,
      metadata: {landmarks: {left: [point], right: [point]}}}] *)
Definition both_sides : SuccessRecord :=
  {| detected_as := Given (js "B");
     predicted_as := Absent;
     confidence := Given (Num.lit 0.5);
     metadata :=
       Given {| handedness := Absent;
                landmarks := Given {| left := Given [point];
                                      right := Given [point];
                                      landmarks_rest := ∅ |};
                metadata_rest := ∅ |};
     rest := {[ js "success" := VBool true ]} |}.

(** [{detected_as: "B", confidence: 0.5,
      metadata: {landmarks: {left: [point]}}}] *)
Definition left_only : SuccessRecord :=
  {| detected_as := Given (js "B");
     predicted_as := Absent;
     confidence := Given (Num.lit 0.5);
     metadata :=
       Given {| handedness := Absent;
                landmarks := Given {| left := Given [point];
                                      right := Absent;
                                      landmarks_rest := ∅ |};
                metadata_rest := ∅ |};
     rest := ∅ |}.

(** [{detected_as: "C", confidence: 87.3, metadata: {handedness: ["both"]}}]:
    a confidence sent as a percentage, and a label for two hands. *)
Definition percent_both : SuccessRecord :=
  {| detected_as := Given (js "C");
     predicted_as := Absent;
     confidence := Given (Num.lit 87.3);
     metadata := Given {| handedness := Given [js "both"];
                          landmarks := Absent;
                          metadata_rest := ∅ |};
     rest := ∅ |}.

(** [{detected_as: "C", confidence: 0.873, metadata: {handedness: ["left"]}}] *)
Definition left_hand_C : SuccessRecord :=
  {| detected_as := Given (js "C");
     predicted_as := Absent;
     confidence := Given (Num.lit 0.873);
     metadata := Given {| handedness := Given [js "left"];
                          landmarks := Absent;
                          metadata_rest := ∅ |};
     rest := ∅ |}.

(** [{}] *)
Definition bare : SuccessRecord :=
  {| detected_as := Absent; predicted_as := Absent; confidence := Absent;
     metadata := Absent; rest := ∅ |}.

Definition quoted (s : jsstring) : jsstring := 34%N :: s ++ [34%N].

(** A response [500 Internal Server Error] with a plain-text body. *)
Definition plain_500 : Response :=
  {| status := 500;
     body := Stream (js "Internal Server Error") None;
     bodyUsed := false |}.

(** A response [422] with the JSON body [{"detail": "bad image"}]. *)
Definition json_422 : Response :=
  {| status := 422;
     body := Stream (js "{" ++ quoted (js "detail") ++ js ": "
                     ++ quoted (js "bad image") ++ js "}")
               (Some (VObj (<[js "detail" := VStr (js "bad image")]> ∅)));
     bodyUsed := false |}.

(** A page on which no letter is chosen: the camera runs, the three result
    elements exist and are empty. *)
Definition no_letter : World :=
  {| checked := None;
     video := Some 7%N;
     offscreen := Some {| width := 640; height := 480; picture := None |};
     requests := [];
     alerts := [];
     console := [];
     MSL_STATE := None;
     resultLetter := Some [];
     resultConfidence := Some [];
     resultHand := Some [];
     appState := State.fresh |}.

(** The same page with the radio of letter A checked. *)
Definition letter_A : World :=
  {| checked := Some (js "A");
     video := Some 7%N;
     offscreen := Some {| width := 640; height := 480; picture := None |};
     requests := [];
     alerts := [];
     console := [];
     MSL_STATE := None;
     resultLetter := Some [];
     resultConfidence := Some [];
     resultHand := Some [];
     appState := State.fresh |}.

(** A server that answers every request with [right_hand_A]. *)
Definition answering : Outside :=
  {| PUBLIC_API_URL := Some (js "https://msl.example/");
     randomUUID := js "1b4e28ba-2fa1-11d2-883f-0016d3cca427";
     server := fun _ =>
       Return {| status := 200;
                 body := Stream (js "...") (Some right_hand_A);
                 bodyUsed := false |} |}.

(** A server that answers every request with [plain_500]. *)
Definition failing : Outside :=
  {| PUBLIC_API_URL := None;
     randomUUID := js "1b4e28ba-2fa1-11d2-883f-0016d3cca427";
     server := fun _ => Return plain_500 |}.

End Sample.

(** ** Kinds of store calls *)

Module Calls.

Import State.

(** The calls that assign [state.result], and those that assign
    [state.errorMessage]. *)
Definition writes_result (o : Op) : bool :=
  match o with
  | SetResult _ | Reset => true
  | _ => false
  end.

Definition writes_message (o : Op) : bool :=
  match o with
  | SetError _ | Reset => true
  | _ => false
  end.

(** The calls that dispatch without a test: all but [setStatus]. *)
Definition unconditional (o : Op) : bool :=
  match o with
  | SetStatus _ => false
  | _ => true
  end.

(** The state a listener saw last: the payload of the latest event, the
    initial state before the first one. *)
Definition last_seen (s : Store) : AppStateShape :=
  default initial (last (dispatched s)).

End Calls.

(** ** Observations of the page *)

Module Page.

Import VideoProcessing.

(** What the capture flow shows as its result: [window.MSL_STATE] and the
    text of the three result elements. *)
Definition results (w : World)
  : option Snapshot * option jsstring * option jsstring * option jsstring :=
  (MSL_STATE w, resultLetter w, resultConfidence w, resultHand w).

(** What the capture flow only reads: the state store, the radio group and
    the video element. *)
Definition bystanders (w : World)
  : State.Store * option jsstring * option Frame :=
  (appState w, checked w, video w).

(** An action leaves an observation of the world as it was, whether it
    returns or throws. *)
Definition keeps {T A : Type} (f : World -> T) (a : Action A) : Prop :=
  forall w, f (snd (a w)) = f w.

(** The offscreen canvas exists, has pixels, and there is a video element to
    draw from: [captureVideoFrame] will hand over a blob. *)
Definition ready (w : World) : bool :=
  match offscreen w, video w with
  | Some canvas, Some _ =>
      negb ((width canvas =? 0)%N || (height canvas =? 0)%N)
  | _, _ => false
  end.

(** The request [sendImageToServer] hands to [fetch]. *)
Definition request_of (o : Outside) (b : Blob) (letter : jsstring) : Request :=
  {| url := API_URL o ++ js "/process/";
     method := js "POST";
     image := b;
     filename := letter ++ js "_" ++ before 45%N (randomUUID o) ++ js ".png";
     label := letter |}.

(** The letter of a typed response as a string: [detected_as], else
    [predicted_as], else the dash. *)
Definition letter_text (r : Wire.SuccessRecord) : jsstring :=
  match Wire.detected_as r with
  | Wire.Given d => d
  | _ =>
      match Wire.predicted_as r with
      | Wire.Given p => p
      | _ => js "-"
      end
  end.

(** The snapshot [updateResultsUI] stores for a derived record. *)
Definition snapshot_of (d : Detection) : Snapshot :=
  {| lastDetectedLetter := detectedLetter d;
     lastConfidenceNum := confidenceNum d;
     lastConfidencePct := confidencePct d;
     lastHand := handDetected d |}.

End Page.

(** ** Further sample pages *)

Module Scene.

Import VideoProcessing.

(** A radio is checked, but its value is the empty string. *)
Definition empty_value : World :=
  {| checked := Some [];
     video := Some 7%N;
     offscreen := Some {| width := 640; height := 480; picture := None |};
     requests := [];
     alerts := [];
     console := [];
     MSL_STATE := None;
     resultLetter := Some [];
     resultConfidence := Some [];
     resultHand := Some [];
     appState := State.fresh |}.

(** Letter A is chosen before [enableVideoProcessing] has created the
    offscreen canvas. *)
Definition too_early : World :=
  {| checked := Some (js "A");
     video := None;
     offscreen := None;
     requests := [];
     alerts := [];
     console := [];
     MSL_STATE := None;
     resultLetter := Some [];
     resultConfidence := Some [];
     resultHand := Some [];
     appState := State.fresh |}.

(** Letter A is chosen on a page that has no element for the hand. *)
Definition no_hand_element : World :=
  {| checked := Some (js "A");
     video := Some 7%N;
     offscreen := Some {| width := 640; height := 480; picture := None |};
     requests := [];
     alerts := [];
     console := [];
     MSL_STATE := None;
     resultLetter := Some [];
     resultConfidence := Some [];
     resultHand := None;
     appState := State.fresh |}.

(** A server that answers every request with [200] and the response
    [Sample.left_hand_C]. *)
Definition answering_left : Outside :=
  {| PUBLIC_API_URL := Some (js "https://msl.example");
     randomUUID := js "1b4e28ba-2fa1-11d2-883f-0016d3cca427";
     server := fun _ =>
       Return {| status := 200;
                 body := Stream (js "...") (Some (Wire.parse Sample.left_hand_C));
                 bodyUsed := false |} |}.

(** [{predicted_as: "D", detected_as: null, confidence: 0.5,
      metadata: {handedness: [""],
                 landmarks: {left: [point], right: [point]}}}] *)
Definition blank_handedness : Wire.SuccessRecord :=
  {| Wire.detected_as := Wire.Null;
     Wire.predicted_as := Wire.Given (js "D");
     Wire.confidence := Wire.Given (Num.lit 0.5);
     Wire.metadata :=
       Wire.Given
         {| Wire.handedness := Wire.Given [[]];
            Wire.landmarks :=
              Wire.Given {| Wire.left := Wire.Given [Sample.point];
                            Wire.right := Wire.Given [Sample.point];
                            Wire.landmarks_rest := ∅ |};
            Wire.metadata_rest := ∅ |};
     Wire.rest := ∅ |}.

(** A response [422] whose [detail] is a list of error objects, as a schema
    validation sends it. *)
Definition field_required : gmap jsstring value :=
  <[js "msg" := VStr (js "field required")]> ∅.

Definition validation_422 : Response :=
  {| status := 422;
     body := Stream (js "...")
               (Some (VObj (<[js "detail" := VArr (map VObj [field_required])]>
                              ∅)));
     bodyUsed := false |}.

End Scene.

(** ** The overlay ([src/scripts/video-processing.js], render loop and
    preview toggle) *)

Module Overlay.

(** *** Configuration *)

(** The keys of [FINGER_CONNECTIONS] and [FINGER_COLORS]. *)
Inductive Finger : Type := thumb | index | middle | ring | pinky | palm.

(** The order in which [for (const finger in FINGER_CONNECTIONS)] visits
    the keys: the order they are written in. *)
Definition fingers : list Finger := [thumb; index; middle; ring; pinky; palm].

Definition FINGER_CONNECTIONS (f : Finger) : list (nat * nat) :=
  match f with
  | thumb => [(0, 1); (1, 2); (2, 3); (3, 4)]
  | index => [(5, 6); (6, 7); (7, 8)]
  | middle => [(9, 10); (10, 11); (11, 12)]
  | ring => [(13, 14); (14, 15); (15, 16)]
  | pinky => [(17, 18); (18, 19); (19, 20)]
  | palm => [(0, 5); (5, 9); (9, 13); (13, 17); (0, 17)]
  end.

Definition FINGER_COLORS (f : Finger) : Num.number * Num.number * Num.number :=
  match f with
  | thumb => (Num.lit 255, Num.lit 0, Num.lit 0)
  | index => (Num.lit 0, Num.lit 255, Num.lit 0)
  | middle => (Num.lit 0, Num.lit 0, Num.lit 255)
  | ring => (Num.lit 255, Num.lit 255, Num.lit 0)
  | pinky => (Num.lit 255, Num.lit 0, Num.lit 255)
  | palm => (Num.lit 200, Num.lit 200, Num.lit 200)
  end.

(** [CONFIG.DRAWING]. *)
Definition DRAWING_lineWidth : Num.number := Num.lit 8.
Definition DRAWING_landmarkRadius : Num.number := Num.lit 8.
Definition DRAWING_landmarkColor : jsstring := js "white".

(** [2 * Math.PI]. *)
Definition two_pi : Num.number := Num.mul (Num.lit 2) (Num.lit 3.141592653589793).

(** *** Hands *)

(** A landmark as the model runtime returns it, and a hand: the array of
    its landmarks. *)
Record Landmark : Type := { x : Num.number; y : Num.number; z : Num.number }.

Definition Hand : Type := list Landmark.

(** *** The drawing context of the overlay canvas *)

Inductive Segment : Type :=
| MoveTo (px py : Num.number)
| LineTo (px py : Num.number)
| Arc (cx cy radius startAngle endAngle : Num.number).

(** What was painted: a path stroked with a style and a line width, or
    filled with a style. *)
Inductive Shape : Type :=
| Stroked (style : jsstring) (lineWidth : Num.number) (path : list Segment)
| Filled (style : jsstring) (path : list Segment).

(** The canvas [overlay] with its context [ctx]: the size of the canvas, the
    drawing state, the current path, and the shapes painted since the canvas
    was last cleared, oldest first. *)
Record Context2D : Type := {
  width : N;
  height : N;
  lineWidth : Num.number;
  strokeStyle : jsstring;
  fillStyle : jsstring;
  path : list Segment;
  painted : list Shape
}.

Definition finite (n : Num.number) : bool :=
  match n with
  | S754_zero _ | S754_finite _ _ _ => true
  | _ => false
  end.

(** [ctx.clearRect(0, 0, overlay.width, overlay.height)]: the whole canvas
    is cleared; the path and the drawing state stay. *)
Definition clearRect (c : Context2D) : Context2D :=
  {| width := width c; height := height c; lineWidth := lineWidth c;
     strokeStyle := strokeStyle c; fillStyle := fillStyle c;
     path := path c; painted := [] |}.

Definition with_path (p : list Segment) (c : Context2D) : Context2D :=
  {| width := width c; height := height c; lineWidth := lineWidth c;
     strokeStyle := strokeStyle c; fillStyle := fillStyle c;
     path := p; painted := painted c |}.

Definition beginPath (c : Context2D) : Context2D := with_path [] c.

(** [ctx.moveTo(px, py)] and [ctx.lineTo(px, py)]: a call with a coordinate
    that is not finite is ignored, and a line on an empty path only sets its
    starting point. *)
Definition moveTo (px py : Num.number) (c : Context2D) : Context2D :=
  if finite px && finite py then with_path (path c ++ [MoveTo px py]) c else c.

Definition lineTo (px py : Num.number) (c : Context2D) : Context2D :=
  if finite px && finite py then
    match path c with
    | [] => with_path [MoveTo px py] c
    | _ :: _ => with_path (path c ++ [LineTo px py]) c
    end
  else c.

(** [ctx.arc(cx, cy, CONFIG.DRAWING.landmarkRadius, 0, 2 * Math.PI)]. *)
Definition arc (cx cy : Num.number) (c : Context2D) : Context2D :=
  if finite cx && finite cy then
    with_path
      (path c ++ [Arc cx cy DRAWING_landmarkRadius Num.zero two_pi]) c
  else c.

Definition stroke (c : Context2D) : Context2D :=
  {| width := width c; height := height c; lineWidth := lineWidth c;
     strokeStyle := strokeStyle c; fillStyle := fillStyle c;
     path := path c;
     painted := painted c ++ [Stroked (strokeStyle c) (lineWidth c) (path c)] |}.

Definition fill (c : Context2D) : Context2D :=
  {| width := width c; height := height c; lineWidth := lineWidth c;
     strokeStyle := strokeStyle c; fillStyle := fillStyle c;
     path := path c;
     painted := painted c ++ [Filled (fillStyle c) (path c)] |}.

(** Assignments to [ctx.lineWidth], [ctx.strokeStyle] and [ctx.fillStyle];
    the values the code assigns are a positive width and valid colours. *)
Definition set_lineWidth (n : Num.number) (c : Context2D) : Context2D :=
  {| width := width c; height := height c; lineWidth := n;
     strokeStyle := strokeStyle c; fillStyle := fillStyle c;
     path := path c; painted := painted c |}.

Definition set_strokeStyle (s : jsstring) (c : Context2D) : Context2D :=
  {| width := width c; height := height c; lineWidth := lineWidth c;
     strokeStyle := s; fillStyle := fillStyle c;
     path := path c; painted := painted c |}.

Definition set_fillStyle (s : jsstring) (c : Context2D) : Context2D :=
  {| width := width c; height := height c; lineWidth := lineWidth c;
     strokeStyle := strokeStyle c; fillStyle := s;
     path := path c; painted := painted c |}.

(** *** Drawing a hand *)

(** A drawing step returns or throws, and leaves a context. *)
Definition Paint : Type := Context2D -> completion unit * Context2D.

(** [list.forEach(step)]: the steps run in order, up to the first that
    throws. *)
Fixpoint forEach {A : Type} (step : A -> Paint) (l : list A) : Paint :=
  fun c =>
    match l with
    | [] => (Return tt, c)
    | a :: rest =>
        match step a c with
        | (Return _, c1) => forEach step rest c1
        | (Throw e, c1) => (Throw e, c1)
        end
    end.

(** [`rgb(${r},${g},${b})`] for the colour of a finger. *)
Definition rgb (f : Finger) : jsstring :=
  let '(r, g, b) := FINGER_COLORS f in
  js "rgb(" ++ Num.toString r ++ js "," ++ Num.toString g ++ js ","
  ++ Num.toString b ++ js ")".

(** The body of [connections.forEach]: both end points are looked up, then
    the segment is drawn; reading [x] of a landmark the hand does not have
    throws. *)
Definition drawConnection (hand : Hand) (connection : nat * nat) : Paint :=
  fun c =>
    let p1 := hand !! fst connection in
    let p2 := hand !! snd connection in
    let c1 := beginPath c in
    match p1 with
    | None => (Throw (TypeError NullishAccess), c1)
    | Some p1 =>
        let c2 := moveTo (Num.mul (x p1) (Num.of_N (width c)))
                    (Num.mul (y p1) (Num.of_N (height c))) c1 in
        match p2 with
        | None => (Throw (TypeError NullishAccess), c2)
        | Some p2 =>
            (Return tt,
             stroke (lineTo (Num.mul (x p2) (Num.of_N (width c)))
                       (Num.mul (y p2) (Num.of_N (height c))) c2))
        end
    end.

Definition drawFingerConnections (hand : Hand) : Paint :=
  fun c =>
    forEach
      (fun finger c1 =>
         forEach (drawConnection hand) (FINGER_CONNECTIONS finger)
           (set_strokeStyle (rgb finger) c1))
      fingers
      (set_lineWidth DRAWING_lineWidth c).

Definition drawLandmarkPoint (p : Landmark) : Paint :=
  fun c =>
    (Return tt,
     fill (arc (Num.mul (x p) (Num.of_N (width c)))
             (Num.mul (y p) (Num.of_N (height c))) (beginPath c))).

Definition drawLandmarkPoints (hand : Hand) : Paint :=
  fun c => forEach drawLandmarkPoint hand (set_fillStyle DRAWING_landmarkColor c).

Definition drawHand (hand : Hand) : Paint :=
  fun c =>
    match drawFingerConnections hand c with
    | (Return _, c1) => drawLandmarkPoints hand c1
    | (Throw e, c1) => (Throw e, c1)
    end.

(** [drawHandLandmarks] over [latestLandmarks]. *)
Definition drawHandLandmarks (hands : list Hand) : Paint := forEach drawHand hands.

(** *** The module's state *)

(** [showLandmarks], [latestLandmarks], the overlay with its context ([None]
    until [enableVideoProcessing] has set [overlay] and [ctx]), whether an
    animation frame is requested, the toggle button of the page (absent, or
    present with or without its [.label] element, whose text is given), and
    the number of click listeners on the button. *)
Record Stage : Type := {
  showLandmarks : bool;
  latestLandmarks : list Hand;
  ctx : option Context2D;
  frameRequested : bool;
  button : option (option jsstring);
  clickListeners : nat
}.

Definition with_ctx (c : option Context2D) (s : Stage) : Stage :=
  {| showLandmarks := showLandmarks s; latestLandmarks := latestLandmarks s;
     ctx := c; frameRequested := frameRequested s; button := button s;
     clickListeners := clickListeners s |}.

Definition with_latestLandmarks (hands : list Hand) (s : Stage) : Stage :=
  {| showLandmarks := showLandmarks s; latestLandmarks := hands;
     ctx := ctx s; frameRequested := frameRequested s; button := button s;
     clickListeners := clickListeners s |}.

Definition with_frameRequested (b : bool) (s : Stage) : Stage :=
  {| showLandmarks := showLandmarks s; latestLandmarks := latestLandmarks s;
     ctx := ctx s; frameRequested := b; button := button s;
     clickListeners := clickListeners s |}.

Definition with_showLandmarks (b : bool) (s : Stage) : Stage :=
  {| showLandmarks := b; latestLandmarks := latestLandmarks s;
     ctx := ctx s; frameRequested := frameRequested s; button := button s;
     clickListeners := clickListeners s |}.

Definition with_label (t : jsstring) (s : Stage) : Stage :=
  {| showLandmarks := showLandmarks s; latestLandmarks := latestLandmarks s;
     ctx := ctx s; frameRequested := frameRequested s;
     button := Some (Some t); clickListeners := clickListeners s |}.

Definition with_clickListeners (n : nat) (s : Stage) : Stage :=
  {| showLandmarks := showLandmarks s; latestLandmarks := latestLandmarks s;
     ctx := ctx s; frameRequested := frameRequested s; button := button s;
     clickListeners := n |}.

(** *** The render loop *)

(** [processFrame].  [detected] is how [landmarker.detectForVideo] ends for
    this frame: it throws, or returns a result whose [landmarks] are given
    ([None] when the result has none).  The frame is requested anew at the
    end, so not after a throw. *)
Definition processFrame (detected : completion (option (list Hand))) (s : Stage)
  : completion unit * Stage :=
  match detected with
  | Throw e => (Throw e, s)
  | Return landmarks =>
      let s1 := with_latestLandmarks (default [] landmarks) s in
      match ctx s1 with
      | None => (Throw (TypeError NullishAccess), s1)
      | Some c =>
          let c1 := clearRect c in
          if showLandmarks s1 then
            match drawHandLandmarks (latestLandmarks s1) c1 with
            | (Return _, c2) =>
                (Return tt, with_frameRequested true (with_ctx (Some c2) s1))
            | (Throw e, c2) => (Throw e, with_ctx (Some c2) s1)
            end
          else (Return tt, with_frameRequested true (with_ctx (Some c1) s1))
      end
  end.

(** The browser runs the requested frame: the request is used up, and
    [processFrame] runs; without a request nothing runs. *)
Definition animationFrame (detected : completion (option (list Hand))) (s : Stage)
  : Stage :=
  if frameRequested s then snd (processFrame detected (with_frameRequested false s))
  else s.

(** *** The preview toggle *)

(** [updateToggleButtonLabel]. *)
Definition labelFor (show : bool) : jsstring :=
  if show then js "Hide Landmarks" else js "Show Landmarks".

(** The click listener [enablePreviewToggle] installs.  It exists only when
    the label does, so it always writes the label. *)
Definition toggleClicked (s : Stage) : completion unit * Stage :=
  let s1 := with_label (labelFor (negb (showLandmarks s)))
              (with_showLandmarks (negb (showLandmarks s)) s) in
  if showLandmarks s1 then (Return tt, s1)
  else
    match ctx s1 with
    | None => (Throw (TypeError NullishAccess), s1)
    | Some c => (Return tt, with_ctx (Some (clearRect c)) s1)
    end.

Definition enablePreviewToggle (s : Stage) : Stage :=
  match button s with
  | Some (Some _) =>
      with_clickListeners (S (clickListeners s))
        (with_label (labelFor (showLandmarks s)) s)
  | _ => s
  end.

(** A click on the button runs every listener; a listener that throws does
    not keep the others from running. *)
Definition click (s : Stage) : Stage :=
  Nat.iter (clickListeners s) (fun s1 => snd (toggleClicked s1)) s.

(** What happens on the page, as far as the overlay goes. *)
Inductive Event : Type :=
| Frame (detected : completion (option (list Hand)))
| Click.

Definition react (s : Stage) (e : Event) : Stage :=
  match e with
  | Frame detected => animationFrame detected s
  | Click => click s
  end.

Definition play (events : list Event) (s : Stage) : Stage :=
  fold_left react events s.

(** *** Descriptions used in the statements *)

(** The body of the loop over the fingers in [drawFingerConnections]. *)
Definition eachFinger (hand : Hand) (finger : Finger) : Paint :=
  fun c1 =>
    forEach (drawConnection hand) (FINGER_CONNECTIONS finger)
      (set_strokeStyle (rgb finger) c1).

(** The hand has both landmarks of a connection, and of every connection of
    a finger. *)
Definition joins (hand : Hand) (connection : nat * nat) : bool :=
  (fst connection <? length hand) && (snd connection <? length hand).

Definition within (hand : Hand) (finger : Finger) : bool :=
  forallb (joins hand) (FINGER_CONNECTIONS finger).

(** While the landmarks are hidden the overlay shows nothing. *)
Definition blank_when_hidden (s : Stage) : Prop :=
  showLandmarks s = false -> forall c, ctx s = Some c -> painted c = [].

(** The label of the toggle button names what the next click does. *)
Definition label_in_sync (s : Stage) : Prop :=
  button s = Some (Some (labelFor (showLandmarks s))).

(** The stroke a connection of a finger paints on a canvas of the given
    size: the segment between its two landmarks, scaled to the canvas. *)
Definition segment (w h : N) (hand : Hand) (connection : nat * nat)
  : list Segment :=
  match hand !! fst connection, hand !! snd connection with
  | Some p1, Some p2 =>
      path (lineTo (Num.mul (x p2) (Num.of_N w)) (Num.mul (y p2) (Num.of_N h))
              (moveTo (Num.mul (x p1) (Num.of_N w)) (Num.mul (y p1) (Num.of_N h))
                 {| width := w; height := h; lineWidth := Num.zero;
                    strokeStyle := []; fillStyle := []; path := [];
                    painted := [] |}))
  | _, _ => []
  end.

Definition skeleton (w h : N) (hand : Hand) : list Shape :=
  flat_map
    (fun finger =>
       map (fun connection =>
              Stroked (rgb finger) DRAWING_lineWidth (segment w h hand connection))
         (FINGER_CONNECTIONS finger))
    fingers.

(** The filled circle of a landmark. *)
Definition dot (w h : N) (p : Landmark) : Shape :=
  Filled DRAWING_landmarkColor
    (path (arc (Num.mul (x p) (Num.of_N w)) (Num.mul (y p) (Num.of_N h))
             {| width := w; height := h; lineWidth := Num.zero;
                strokeStyle := []; fillStyle := []; path := [];
                painted := [] |})).

(** What a completed frame shows of one hand: the skeleton, then the dots. *)
Definition picture (w h : N) (hand : Hand) : list Shape :=
  skeleton w h hand ++ map (dot w h) hand.

End Overlay.


(** ** Sample stages *)

Module Studio.

Import Overlay.

(** A hand of 21 landmarks, all at the centre of the frame. *)
Definition centred_hand : Hand :=
  repeat {| x := Num.lit 0.5; y := Num.lit 0.5; z := Num.zero |} 21.


Definition blank_overlay : Context2D :=
  {| width := 640; height := 480; lineWidth := Num.one;
     strokeStyle := js "#000000"; fillStyle := js "#000000";
     path := []; painted := [] |}.

(** The page after [enableVideoProcessing]: the overlay is sized and blank,
    the first frame is requested, the toggle button has its label element,
    and [enablePreviewToggle] has not run yet. *)
Definition running : Stage :=
  {| showLandmarks := true;
     latestLandmarks := [];
     ctx := Some blank_overlay;
     frameRequested := true;
     button := Some (Some []);
     clickListeners := 0 |}.

End Studio.

(** ** Starting the camera *)

Module Camera.

(** The [video] member of what [getUserMedia] is asked for. *)
Inductive VideoConstraints : Type :=
| Ideal (w h : N)   (* {width: {ideal: w}, height: {ideal: h}} *)
| AnyVideo.         (* true *)

(** [{video: CONFIG.VIDEO_CONSTRAINTS.high}] and
    [CONFIG.VIDEO_CONSTRAINTS.fallback]. *)
Definition high : VideoConstraints := Ideal 1920 1080.
Definition fallback : VideoConstraints := AnyVideo.

(** A camera stream, by the size of its video. *)
Record Stream : Type := { videoWidth : N; videoHeight : N }.

(** The page and the browser as [enableVideoProcessing] finds them: whether
    the document has the video element, the overlay canvas of the document
    with its context (if it has one), how a call of [getUserMedia] settles,
    and how the loading of the hand landmarker settles.  A stream that is
    attached to the video element delivers its metadata. *)
Record Surroundings : Type := {
  webcam : bool;
  overlayElement : option Overlay.Context2D;
  getUserMedia : VideoConstraints -> completion Stream;
  createHandLandmarker : completion unit
}.

(** What the start changes: the stream of the video element, the requests
    made to the camera (oldest first), the offscreen canvas, whether the
    landmarker is set, and the overlay with the render loop. *)
Record Rig : Type := {
  srcObject : option Stream;
  asked : list VideoConstraints;
  offscreen : option VideoProcessing.Canvas;
  landmarker : bool;
  stage : Overlay.Stage
}.

Definition with_srcObject (st : option Stream) (r : Rig) : Rig :=
  {| srcObject := st; asked := asked r; offscreen := offscreen r;
     landmarker := landmarker r; stage := stage r |}.

Definition with_asked (l : list VideoConstraints) (r : Rig) : Rig :=
  {| srcObject := srcObject r; asked := l; offscreen := offscreen r;
     landmarker := landmarker r; stage := stage r |}.

Definition with_offscreen (c : option VideoProcessing.Canvas) (r : Rig) : Rig :=
  {| srcObject := srcObject r; asked := asked r; offscreen := c;
     landmarker := landmarker r; stage := stage r |}.

Definition with_landmarker (b : bool) (r : Rig) : Rig :=
  {| srcObject := srcObject r; asked := asked r; offscreen := offscreen r;
     landmarker := b; stage := stage r |}.

Definition with_stage (s : Overlay.Stage) (r : Rig) : Rig :=
  {| srcObject := srcObject r; asked := asked r; offscreen := offscreen r;
     landmarker := landmarker r; stage := s |}.

(** A step of the start returns or throws, and leaves a rig. *)
Definition Step : Type := Rig -> completion unit * Rig.

Definition andThen (first next : Step) : Step :=
  fun r =>
    match first r with
    | (Return _, r1) => next r1
    | (Throw e, r1) => (Throw e, r1)
    end.

(** The body of the [try] block and of the [catch] block of [setupWebcam]:
    the camera is asked, and the stream it grants is attached to the video
    element, which throws when there is no such element. *)
Definition openCamera (env : Surroundings) (c : VideoConstraints) : Step :=
  fun r =>
    let r1 := with_asked (asked r ++ [c]) r in
    match getUserMedia env c with
    | Throw e => (Throw e, r1)
    | Return stream =>
        if webcam env then (Return tt, with_srcObject (Some stream) r1)
        else (Throw (TypeError NullishAccess), r1)
    end.

Definition setupWebcam (env : Surroundings) : Step :=
  fun r =>
    match openCamera env high r with
    | (Return _, r1) => (Return tt, r1)
    | (Throw _, r1) => openCamera env fallback r1
    end.

(** A canvas context after its canvas was given a size: the drawing state
    is the initial one and nothing is painted. *)
Definition blank (w h : N) : Overlay.Context2D :=
  {| Overlay.width := w; Overlay.height := h; Overlay.lineWidth := Num.one;
     Overlay.strokeStyle := js "#000000"; Overlay.fillStyle := js "#000000";
     Overlay.path := []; Overlay.painted := [] |}.

(** [video.videoWidth] and [video.videoHeight]: zero without a stream. *)
Definition videoSize (r : Rig) : N * N :=
  match srcObject r with
  | Some stream => (videoWidth stream, videoHeight stream)
  | None => (0%N, 0%N)
  end.

(** [setupCanvases].  It is called once [video], [overlay] and [offscreen]
    are set; without one of them the first assignment throws. *)
Definition setupCanvases (env : Surroundings) : Step :=
  fun r =>
    match webcam env, Overlay.ctx (stage r), offscreen r with
    | true, Some _, Some _ =>
        let '(w, h) := videoSize r in
        (Return tt,
         with_offscreen
           (Some {| VideoProcessing.width := w; VideoProcessing.height := h;
                    VideoProcessing.picture := None |})
           (with_stage (Overlay.with_ctx (Some (blank w h)) (stage r)) r))
    | _, _, _ => (Throw (TypeError NullishAccess), r)
    end.

Definition initializeHandLandmarker (env : Surroundings) : Step :=
  fun r =>
    match createHandLandmarker env with
    | Return _ => (Return tt, with_landmarker true r)
    | Throw e => (Throw e, r)
    end.

(** [requestAnimationFrame(processFrame)]. *)
Definition requestAnimationFrame : Step :=
  fun r => (Return tt, with_stage (Overlay.with_frameRequested true (stage r)) r).

(** [enableVideoProcessing] with the ids of the page.  Without the overlay
    element [overlay.getContext] throws before anything else happens; a new
    canvas has the default size of 300 by 150. *)
Definition enableVideoProcessing (env : Surroundings) : Step :=
  fun r =>
    match overlayElement env with
    | None =>
        (Throw (TypeError NullishAccess),
         with_stage (Overlay.with_ctx None (stage r)) r)
    | Some c =>
        andThen (setupWebcam env)
          (andThen (setupCanvases env)
             (andThen (initializeHandLandmarker env) requestAnimationFrame))
          (with_offscreen
             (Some {| VideoProcessing.width := 300; VideoProcessing.height := 150;
                      VideoProcessing.picture := None |})
             (with_stage (Overlay.with_ctx (Some c) (stage r)) r))
    end.

(** *** Descriptions used in the statements *)

Definition settles {A : Type} (c : completion A) : bool :=
  match c with
  | Return _ => true
  | Throw _ => false
  end.

(** The page as the start finds it when the module is freshly loaded. *)
Definition fresh : Rig :=
  {| srcObject := None; asked := []; offscreen := None; landmarker := false;
     stage := {| Overlay.showLandmarks := true; Overlay.latestLandmarks := [];
                 Overlay.ctx := None; Overlay.frameRequested := false;
                 Overlay.button := None; Overlay.clickListeners := 0 |} |}.

(** A page with both elements, a camera that cannot deliver the high
    resolution but grants 640 by 480, and a landmarker that loads. *)
Definition modest_camera : Surroundings :=
  {| webcam := true;
     overlayElement := Some (blank 300 150);
     getUserMedia := fun c =>
       match c with
       | Ideal _ _ => Throw (Error (js "OverconstrainedError"))
       | AnyVideo => Return {| videoWidth := 640; videoHeight := 480 |}
       end;
     createHandLandmarker := Return tt |}.

(** The same page when the model file cannot be fetched. *)
Definition model_unreachable : Surroundings :=
  {| webcam := webcam modest_camera;
     overlayElement := overlayElement modest_camera;
     getUserMedia := getUserMedia modest_camera;
     createHandLandmarker := Throw (TypeError NetworkFailure) |}.

End Camera.

(** * The number functions on known values *)

Section NumberExamples.

Import Num.

Example toString_integer : toString (lit 87) = js "87".
Proof. vm_compute. reflexivity. Qed.

Example toString_fraction : toString (lit 0.873) = js "0.873".
Proof. vm_compute. reflexivity. Qed.

Example toString_negative : toString (lit (-42.5)) = js "-42.5".
Proof. vm_compute. reflexivity. Qed.

Example toString_small : toString (lit 0.000001) = js "0.000001".
Proof. vm_compute. reflexivity. Qed.

Example toString_small_exponent : toString (lit 1e-7) = js "1e-7".
Proof. vm_compute. reflexivity. Qed.

Example toString_large :
  toString (lit 123456789012345680000) = js "123456789012345680000".
Proof. vm_compute. reflexivity. Qed.

Example toString_large_exponent : toString (lit 1e21) = js "1e+21".
Proof. vm_compute. reflexivity. Qed.

Example toString_seventeen_digits :
  toString (mul (lit 1.1) (lit 3)) = js "3.3000000000000003".
Proof. vm_compute. reflexivity. Qed.

Example Math_round_half_up : Math_round (lit 2.5) = lit 3.
Proof. vm_compute. reflexivity. Qed.

Example Math_round_negative_half : Math_round (lit (-2.5)) = lit (-2).
Proof. vm_compute. reflexivity. Qed.

Example Math_round_minus_zero : Math_round (lit (-0.5)) = S754_zero true.
Proof. vm_compute. reflexivity. Qed.

Example Math_round_below_half : Math_round (lit 0.49999999999999994) = zero.
Proof. vm_compute. reflexivity. Qed.

Example Math_round_percentage :
  Math_round (mul (lit 0.873) (lit 100)) = lit 87.
Proof. vm_compute. reflexivity. Qed.

Example of_nat_exact : of_nat 640 = lit 640.
Proof. vm_compute. reflexivity. Qed.

End NumberExamples.

(** * Properties of the state store *)

Section StoreFacts.

Import State State.AppState.

(** The log of events only grows. *)
Lemma call_extends_log (o : Op) (s : Store) :
  exists added, dispatched (call o s) = dispatched s ++ added.
Proof.
  destruct o as [next | r | message | ]; cbn.
  - unfold setStatus. case_bool_decide.
    + exists []. by rewrite app_nil_r.
    + by eexists.
  - by eexists.
  - by eexists.
  - by eexists.
Qed.

Lemma run_cons (o : Op) (ops : list Op) (s : Store) :
  run (o :: ops) s = run ops (call o s).
Proof. reflexivity. Qed.

Lemma run_extends_log (ops : list Op) (s : Store) :
  exists added, dispatched (run ops s) = dispatched s ++ added.
Proof.
  revert s. induction ops as [ | o ops IH]; intros s.
  - exists []. by rewrite app_nil_r.
  - rewrite run_cons. destruct (IH (call o s)) as [l2 H2].
    destruct (call_extends_log o s) as [l1 H1].
    exists (l1 ++ l2). by rewrite H2, H1, app_assoc.
Qed.

Lemma notified_nil (s : Store) : notified [] s = [].
Proof. unfold notified. cbn. by rewrite drop_all. Qed.

Lemma notified_cons (o : Op) (ops : list Op) (s : Store) :
  notified (o :: ops) s = notified [o] s ++ notified ops (call o s).
Proof.
  unfold notified. rewrite run_cons. cbn [run fold_left].
  destruct (call_extends_log o s) as [l1 H1].
  destruct (run_extends_log ops (call o s)) as [l2 H2].
  rewrite H2, H1.
  rewrite <- app_assoc.
  rewrite !drop_app_length.
  rewrite app_assoc, drop_app_length.
  by rewrite map_app.
Qed.

(** A repeated status is dropped silently; a new one is announced once. *)
Lemma notified_setStatus (next : Status) (nexts : list Status) (s : Store) :
  notified (map SetStatus (next :: nexts)) s =
  if bool_decide (next = status (state s))
  then notified (map SetStatus nexts) s
  else next :: notified (map SetStatus nexts) (setStatus next s).
Proof.
  cbn [map]. rewrite notified_cons. cbn [call].
  unfold notified at 1. cbn. unfold setStatus.
  case_bool_decide as Hnext.
  - by rewrite drop_all.
  - cbn. by rewrite drop_app_length.
Qed.

Lemma setStatus_status (next : Status) (s : Store) :
  status (state (setStatus next s)) = next.
Proof. unfold setStatus. case_bool_decide; [congruence | reflexivity]. Qed.

Lemma changing_setStatus_run (nexts : list Status) (s : Store) :
  changing (status (state s) :: notified (map SetStatus nexts) s).
Proof.
  revert s. induction nexts as [ | next nexts IH]; intros s.
  - cbn [map]. rewrite notified_nil. exact I.
  - rewrite notified_setStatus. case_bool_decide as Hnext.
    + apply IH.
    + specialize (IH (setStatus next s)). rewrite setStatus_status in IH.
      cbn. split; [congruence | exact IH].
Qed.

(** Each operation but [setStatus] keeps the invariant, and [setStatus]
    keeps it when it is guarded. *)
Lemma call_consistent (o : Op) (s : Store) :
  keeps_status_of_error o s = true ->
  consistent (state s) -> consistent (state (call o s)).
Proof.
  unfold consistent. destruct o as [next | r | message | ]; cbn.
  - unfold setStatus. intros Hg Hs.
    destruct (decide (next = status (state s))) as [Hsame | Hnew].
    + by rewrite bool_decide_eq_true_2.
    + rewrite bool_decide_eq_false_2 by exact Hnew. cbn. intros Hmsg.
      apply orb_true_iff in Hg as [Hg | Hg]; apply bool_decide_eq_true in Hg.
      * exact Hg.
      * contradiction.
  - intros _ Hs. exact Hs.
  - intros _ _ _. reflexivity.
  - intros _ _ Hmsg. contradiction.
Qed.

Lemma guarded_visited_consistent (ops : list Op) (s : Store) :
  consistent (state s) -> guarded ops s = true ->
  Forall (fun v => consistent (state v)) (visited ops s).
Proof.
  revert s. induction ops as [ | o ops IH]; intros s Hs Hg; cbn.
  - by constructor.
  - cbn in Hg. apply andb_true_iff in Hg as [Ho Hrest].
    constructor; [exact Hs | ].
    apply IH; [by apply call_consistent | exact Hrest].
Qed.

(** The guard is exact: the first unguarded call leaves a state that has a
    message and a status other than the error status. *)
Lemma unguarded_visited_inconsistent (ops : list Op) (s : Store) :
  consistent (state s) -> guarded ops s = false ->
  Exists (fun v => ~ consistent (state v)) (visited ops s).
Proof.
  revert s. induction ops as [ | o ops IH]; intros s Hs Hg; cbn in *.
  - discriminate.
  - apply Exists_cons_tl.
    destruct (keeps_status_of_error o s) eqn:Ho; cbn in Hg.
    + apply IH; [by apply call_consistent | exact Hg].
    + destruct o as [next | | | ]; try discriminate. cbn in Ho.
      apply orb_false_iff in Ho as [Hne Hmsg].
      apply bool_decide_eq_false in Hne, Hmsg.
      assert (Hbreaks : ~ consistent (state (call (SetStatus next) s))).
      { cbn. unfold setStatus, consistent.
        destruct (decide (next = status (state s))) as [Hsame | Hnew].
        - rewrite bool_decide_eq_true_2 by exact Hsame.
          intros _. apply Hne. rewrite Hsame. by apply Hs.
        - rewrite bool_decide_eq_false_2 by exact Hnew.
          cbn. intros Hc. apply Hne. by apply Hc. }
      destruct ops; cbn; by constructor.
Qed.

(** C1, as stated, fails: after [setError] with a message, [setStatus] with
    another status changes the status and keeps the message. *)
Lemma message_outlives_error_status :
  ~ Forall (fun v => consistent (state v))
      (visited [SetError (Some (js "camera lost")); SetStatus loading] fresh).
Proof.
  intros Hall.
  apply Forall_cons_iff in Hall as [_ Hall].
  apply Forall_cons_iff in Hall as [_ Hall].
  apply Forall_cons_iff in Hall as [Hlast _].
  assert (Hstatus : loading = error); [ | discriminate Hstatus].
  apply Hlast. discriminate.
Qed.

(** C1 (amended): from the initial state, along every sequence of
    [setStatus], [setResult], [setError] and [reset] calls in which
    [setStatus] is given a status other than ["error"] only while
    [errorMessage] is null, every state passed through has status ["error"]
    whenever its [errorMessage] is non-null. *)
Theorem guarded_runs_keep_error_status (ops : list Op) :
  guarded ops fresh = true ->
  Forall (fun v => consistent (state v)) (visited ops fresh).
Proof.
  apply guarded_visited_consistent.
  unfold consistent. cbn. intros Hmsg. contradiction.
Qed.

Lemma guarded_runs_keep_error_status_example :
  Forall (fun v => consistent (state v))
    (visited [SetStatus loading; SetError (Some (js "camera lost"));
              SetResult None; SetStatus error; Reset; SetStatus requestDone]
       fresh).
Proof.
  apply (guarded_runs_keep_error_status
           [SetStatus loading; SetError (Some (js "camera lost"));
            SetResult None; SetStatus error; Reset; SetStatus requestDone]).
  vm_compute. reflexivity.
Defined.

(** C2: for every message, [null] included, [setError] leaves the status
    ["error"] and the message given, keeps the result, and dispatches one
    [stateChange] event that carries the new state. *)
Theorem setError_forces_error_status (message : option jsstring) (s : Store) :
  status (state (setError message s)) = error
  /\ errorMessage (state (setError message s)) = message
  /\ result (state (setError message s)) = result (state s)
  /\ dispatched (setError message s)
     = dispatched s ++ [state (setError message s)].
Proof. repeat split. Qed.

(** C9: [setStatus] with the current status changes neither the state nor
    the log of events; hence in a sequence of [setStatus] calls every
    event announces a status other than the one before it, so that no value
    is announced twice in a row. *)
Theorem setStatus_current_is_silent (next : Status) (s : Store) :
  next = status (state s) ->
  setStatus next s = s
  /\ forall nexts : list Status,
       changing (status (state s) :: notified (map SetStatus nexts) s).
Proof.
  intros Hcur. split.
  - unfold setStatus. by rewrite bool_decide_eq_true_2.
  - intros nexts. apply changing_setStatus_run.
Qed.

Lemma setStatus_current_is_silent_example :
  setStatus loading (setStatus loading fresh) = setStatus loading fresh
  /\ forall nexts : list Status,
       changing (loading
                 :: notified (map SetStatus nexts) (setStatus loading fresh)).
Proof.
  apply (setStatus_current_is_silent loading (setStatus loading fresh)).
  reflexivity.
Defined.

End StoreFacts.

(** * Properties of the extraction *)

Section ParsedRecords.

Import Wire VideoProcessing.

Context `{Platform}.

(** Two property names of the code are different strings. *)
Ltac keys_differ :=
  let E := fresh in intros E; vm_compute in E; discriminate E.

Lemma lookup_put_other {A : Type} (k k' : string) (f : A -> value)
    (x : field A) (props : gmap jsstring value) :
  js k <> js k' -> put k' f x props !! js k = props !! js k.
Proof.
  intros Hne. destruct x; cbn.
  - by rewrite lookup_delete_ne.
  - by rewrite lookup_insert_ne.
  - by rewrite lookup_insert_ne.
Qed.

Lemma lookup_put_here {A : Type} (k : string) (f : A -> value)
    (x : field A) (props : gmap jsstring value) :
  default VUndef (put k f x props !! js k) = read f x.
Proof.
  destruct x; cbn.
  - by rewrite lookup_delete_eq.
  - by rewrite lookup_insert_eq.
  - by rewrite lookup_insert_eq.
Qed.

Lemma get_detected_as (r : SuccessRecord) :
  get (parse r) (js "detected_as") = Return (read VStr (detected_as r)).
Proof.
  unfold parse. cbn [get]. f_equal. apply lookup_put_here.
Qed.

Lemma get_predicted_as (r : SuccessRecord) :
  get (parse r) (js "predicted_as") = Return (read VStr (predicted_as r)).
Proof.
  unfold parse. cbn [get]. f_equal.
  rewrite lookup_put_other by keys_differ. apply lookup_put_here.
Qed.

Lemma get_confidence (r : SuccessRecord) :
  get (parse r) (js "confidence") = Return (read VNum (confidence r)).
Proof.
  unfold parse. cbn [get]. f_equal.
  rewrite !lookup_put_other by keys_differ. apply lookup_put_here.
Qed.

Lemma get_metadata (r : SuccessRecord) :
  get_opt (parse r) (js "metadata") = Return (read of_metadata (metadata r)).
Proof.
  unfold parse. cbn [get_opt get nullish]. f_equal.
  rewrite !lookup_put_other by keys_differ. apply lookup_put_here.
Qed.

Lemma get_handedness (m : Metadata) :
  get_opt (of_metadata m) (js "handedness")
  = Return (read (fun hs => VArr (map VStr hs)) (handedness m)).
Proof.
  unfold of_metadata. cbn [get_opt get nullish]. f_equal.
  apply lookup_put_here.
Qed.

Lemma get_landmarks (m : Metadata) :
  get_opt (of_metadata m) (js "landmarks")
  = Return (read of_landmarks (landmarks m)).
Proof.
  unfold of_metadata. cbn [get_opt get nullish]. f_equal.
  rewrite !lookup_put_other by keys_differ. apply lookup_put_here.
Qed.

Lemma get_left (l : Landmarks) :
  get_opt (of_landmarks l) (js "left") = Return (read VArr (left l)).
Proof.
  unfold of_landmarks. cbn [get_opt get nullish]. f_equal.
  apply lookup_put_here.
Qed.

Lemma get_right (l : Landmarks) :
  get_opt (of_landmarks l) (js "right") = Return (read VArr (right l)).
Proof.
  unfold of_landmarks. cbn [get_opt get nullish]. f_equal.
  rewrite !lookup_put_other by keys_differ. apply lookup_put_here.
Qed.

(** The length of a list is truthy exactly when the list has an element. *)
Lemma truthy_lengthOf {A : Type} (l : list A) :
  truthy (lengthOf l) = nonempty l.
Proof. destruct l; reflexivity. Qed.

Lemma get_length (items : list value) :
  get_opt (VArr items) (js "length") = Return (lengthOf items).
Proof. reflexivity. Qed.

End ParsedRecords.

Section DerivedRecord.

Import Wire VideoProcessing.

Context `{Platform}.

Local Open Scope js_scope.

Lemma landmarkCount_right (r : SuccessRecord) :
  exists v, landmarkCount (parse r) (js "right") = Return v
            /\ truthy v = nonempty (right_landmarks r).
Proof.
  unfold landmarkCount, right_landmarks, landmarks_of, metadata_of.
  rewrite get_metadata.
  destruct (metadata r) as [ | | m]; cbn [bind read]; try by eexists.
  rewrite get_landmarks.
  destruct (landmarks m) as [ | | l]; cbn [bind read]; try by eexists.
  rewrite get_right.
  destruct (right l) as [ | | items]; cbn [bind read]; try by eexists.
  rewrite get_length. eexists. split; [reflexivity | ].
  apply truthy_lengthOf.
Qed.

Lemma landmarkCount_left (r : SuccessRecord) :
  exists v, landmarkCount (parse r) (js "left") = Return v
            /\ truthy v = nonempty (left_landmarks r).
Proof.
  unfold landmarkCount, left_landmarks, landmarks_of, metadata_of.
  rewrite get_metadata.
  destruct (metadata r) as [ | | m]; cbn [bind read]; try by eexists.
  rewrite get_landmarks.
  destruct (landmarks m) as [ | | l]; cbn [bind read]; try by eexists.
  rewrite get_left.
  destruct (left l) as [ | | items]; cbn [bind read]; try by eexists.
  rewrite get_length. eexists. split; [reflexivity | ].
  apply truthy_lengthOf.
Qed.

(** The first explicit handedness entry, as [handedness?.[0]] reads it. *)
Lemma first_handedness_then {B : Type} (r : SuccessRecord)
    (k : value -> completion B) :
  (m <- get_opt (parse r) (js "metadata") ;;
   h <- get_opt m (js "handedness") ;;
   h0 <- item0_opt h ;;
   k h0)
  = k (match handedness_entries r with
       | h :: _ => VStr h
       | [] => VUndef
       end).
Proof.
  unfold handedness_entries, metadata_of.
  rewrite get_metadata.
  destruct (metadata r) as [ | | m]; cbn [bind read]; try reflexivity.
  rewrite get_handedness.
  destruct (handedness m) as [ | | hs]; cbn [bind read]; try reflexivity.
  destruct hs; reflexivity.
Qed.

Lemma capitalize_side (s : jsstring) :
  (if truthy (VStr s) then capitalize (VStr s) else Return (js "—"))
  = Return (match s with
            | c :: rest => toUpperCase [c] ++ rest
            | [] => js "—"
            end).
Proof. destruct s; reflexivity. Qed.

(** On a parsed response, [extractDetectionData] returns the typed
    reading. *)
Lemma extract_parse (r : SuccessRecord) :
  extractDetectionData (parse r) = Return (derived r).
Proof.
  unfold extractDetectionData.
  rewrite get_detected_as. cbn [bind].
  assert (Hletter :
    coalesce (read VStr (detected_as r))
      (p <- get (parse r) (js "predicted_as") ;;
       coalesce p (Return (VStr (js "-"))))
    = Return (letter r)).
  { rewrite get_predicted_as. unfold letter.
    destruct (detected_as r), (predicted_as r); reflexivity. }
  rewrite Hletter. cbn [bind]. clear Hletter.
  rewrite get_confidence. cbn [bind].
  assert (Hconf : forall k : Num.number -> completion Detection,
    (c0 <- coalesce (read VNum (confidence r)) (Return (VNum Num.zero)) ;;
     n <- ToNumber c0 ;; k n)
    = k (confidence_or_zero r)).
  { intros k. unfold confidence_or_zero. destruct (confidence r); reflexivity. }
  rewrite Hconf. clear Hconf.
  rewrite first_handedness_then.
  unfold derived, hand, side.
  destruct (handedness_entries r) as [ | h hs].
  - cbn [coalesce nullish].
    destruct (landmarkCount_right r) as (vr & Hr & Tr).
    rewrite Hr. cbn [bind]. rewrite Tr.
    destruct (nonempty (right_landmarks r)).
    + cbn [bind]. rewrite capitalize_side. reflexivity.
    + destruct (landmarkCount_left r) as (vl & Hl & Tl).
      rewrite Hl. cbn [bind]. rewrite Tl.
      destruct (nonempty (left_landmarks r)).
      * cbn [bind]. rewrite capitalize_side. reflexivity.
      * reflexivity.
  - cbn [coalesce nullish bind]. rewrite capitalize_side.
    destruct h; reflexivity.
Qed.

(** Outside the shape of a response the function can throw: on a record
    that is [null], and on a handedness entry that is no string. *)
Lemma extract_null_throws :
  extractDetectionData VNull = Throw (TypeError NullishAccess).
Proof. reflexivity. Qed.

Lemma extract_numeric_handedness_throws :
  extractDetectionData
    (VObj (<[js "metadata" :=
               VObj (<[js "handedness" := VArr [VNum Num.one]]> ∅)]> ∅))
  = Throw (TypeError NotCallable).
Proof. vm_compute. reflexivity. Qed.

(** C10: for every success response, whatever fields are present, missing
    or null, the metadata object included, [extractDetectionData] returns a
    record and does not throw. *)
Theorem extractDetectionData_total (r : SuccessRecord) :
  returns (extractDetectionData (parse r)).
Proof. exists (derived r). apply extract_parse. Qed.

(** C4: the response
    [{detected_as: "A", confidence: 0.873, metadata: {handedness: ["right"]}}]
    gives letter ["A"], confidence [0.873], percentage ["87%"] and hand
    ["Right"]. *)
Theorem extractDetectionData_right_hand_A :
  extractDetectionData Sample.right_hand_A
  = Return {| detectedLetter := VStr (js "A");
              confidenceNum := Num.lit 0.873;
              confidencePct := js "87%";
              handDetected := js "Right" |}.
Proof. vm_compute. reflexivity. Qed.

(** C5, as stated, fails: with landmarks on both sides and no handedness
    entry the right side wins. *)
Lemma both_sides_resolve_to_right :
  exists d,
    @extractDetectionData plain_host (parse Sample.both_sides) = Return d
    /\ left_landmarks Sample.both_sides <> []
    /\ handedness_entries Sample.both_sides = []
    /\ handDetected d <> js "Left".
Proof.
  eexists. split; [vm_compute; reflexivity | ].
  split; [discriminate | ]. split; [reflexivity | ].
  vm_compute. discriminate.
Qed.

(** C5 (amended): for every success response whose metadata holds a
    non-empty [landmarks.left] list, no handedness entry, and no non-empty
    [landmarks.right] list, the derived [handDetected] is ["Left"]. *)
Theorem left_landmarks_resolve_to_left (r : SuccessRecord) :
  handedness_entries r = [] ->
  left_landmarks r <> [] ->
  right_landmarks r = [] ->
  exists d, extractDetectionData (parse r) = Return d
            /\ handDetected d = js "Left".
Proof.
  intros Hnone Hleft Hright. exists (derived r).
  split; [apply extract_parse | ].
  cbn [derived handDetected]. unfold hand, side.
  rewrite Hnone, Hright. cbn [nonempty].
  destruct (left_landmarks r); [contradiction | ].
  vm_compute. reflexivity.
Qed.

(** C6: a success response without [detected_as], [predicted_as] and
    [confidence] (each missing or null), without a handedness entry and
    without a non-empty landmark list on either side, gives letter ["-"],
    confidence [0], percentage ["0%"] and hand ["—"], and nothing is
    thrown. *)
Theorem empty_response_gives_defaults (r : SuccessRecord) :
  given (detected_as r) = false ->
  given (predicted_as r) = false ->
  given (confidence r) = false ->
  handedness_entries r = [] ->
  left_landmarks r = [] ->
  right_landmarks r = [] ->
  extractDetectionData (parse r)
  = Return {| detectedLetter := VStr (js "-");
              confidenceNum := Num.zero;
              confidencePct := js "0%";
              handDetected := js "—" |}.
Proof.
  intros Hd Hp Hc Hh Hl Hr. rewrite extract_parse. f_equal.
  unfold derived, hand, side, letter, confidence_or_zero.
  rewrite Hh, Hl, Hr.
  destruct (detected_as r); try discriminate;
    destruct (predicted_as r); try discriminate;
    destruct (confidence r); try discriminate;
    vm_compute; reflexivity.
Qed.

(** C3, as stated, fails: the confidence and the handedness entry are
    passed on as the server sent them. *)
Lemma percent_both_out_of_range :
  exists d,
    @extractDetectionData plain_host (parse Sample.percent_both) = Return d
    /\ ~ (unit_interval (confidenceNum d) = true
          /\ handDetected d ∈ [js "Left"; js "Right"; js "—"]).
Proof.
  eexists. split; [vm_compute; reflexivity | ].
  intros [Hrange _]. vm_compute in Hrange. discriminate.
Qed.

Lemma capitalize_known_side (h : jsstring) :
  h ∈ [js "left"; js "right"; js "Left"; js "Right"] ->
  match h with
  | c :: rest => toUpperCase [c] ++ rest
  | [] => js "—"
  end ∈ [js "Left"; js "Right"; js "—"].
Proof.
  intros Hin. repeat apply elem_of_cons in Hin as [-> | Hin].
  - vm_compute. apply list_elem_of_here.
  - vm_compute. apply list_elem_of_further, list_elem_of_here.
  - vm_compute. apply list_elem_of_here.
  - vm_compute. apply list_elem_of_further, list_elem_of_here.
  - by apply elem_of_nil in Hin.
Qed.

(** C3 (amended): for every success response whose confidence, when given,
    lies between 0 and 1, and whose first handedness entry, when there is
    one, is ["left"], ["right"], ["Left"], ["Right"] or the empty string,
    the derived record has [confidenceNum] between 0 and 1 and
    [handDetected] equal to ["Left"], ["Right"] or ["—"]. *)
Theorem ranges_of_derived_record (r : SuccessRecord) :
  (forall c, confidence r = Given c -> unit_interval c = true) ->
  (forall h, head (handedness_entries r) = Some h ->
             h ∈ [js "left"; js "right"; js "Left"; js "Right"; []]) ->
  exists d, extractDetectionData (parse r) = Return d
            /\ unit_interval (confidenceNum d) = true
            /\ handDetected d ∈ [js "Left"; js "Right"; js "—"].
Proof.
  intros Hconf Hhand. exists (derived r).
  split; [apply extract_parse | ]. split.
  - cbn [derived confidenceNum]. unfold confidence_or_zero.
    destruct (confidence r) as [ | | c]; [reflexivity | reflexivity | ].
    by apply Hconf.
  - cbn [derived handDetected]. unfold hand, side.
    destruct (handedness_entries r) as [ | h hs].
    + destruct (nonempty (right_landmarks r)).
      * vm_compute. apply list_elem_of_further, list_elem_of_here.
      * destruct (nonempty (left_landmarks r)).
        -- vm_compute. apply list_elem_of_here.
        -- do 2 apply list_elem_of_further. apply list_elem_of_here.
    + specialize (Hhand h eq_refl).
      destruct h as [ | c rest].
      * do 2 apply list_elem_of_further. apply list_elem_of_here.
      * apply (capitalize_known_side (c :: rest)).
        repeat apply elem_of_cons in Hhand as [Hhand | Hhand];
          try (rewrite Hhand; set_solver).
        by apply elem_of_nil in Hhand.
Qed.

End DerivedRecord.

(** The typed statements, run on the sample responses. *)
Lemma left_landmarks_resolve_to_left_example :
  exists d,
    @VideoProcessing.extractDetectionData plain_host
      (Wire.parse Sample.left_only) = Return d
    /\ VideoProcessing.handDetected d = js "Left".
Proof.
  apply (@left_landmarks_resolve_to_left plain_host Sample.left_only).
  - reflexivity.
  - discriminate.
  - reflexivity.
Defined.

Lemma empty_response_gives_defaults_example :
  @VideoProcessing.extractDetectionData plain_host (Wire.parse Sample.bare)
  = Return {| VideoProcessing.detectedLetter := VStr (js "-");
              VideoProcessing.confidenceNum := Num.zero;
              VideoProcessing.confidencePct := js "0%";
              VideoProcessing.handDetected := js "—" |}.
Proof.
  apply (@empty_response_gives_defaults plain_host Sample.bare);
    reflexivity.
Defined.

Lemma ranges_of_derived_record_example :
  exists d,
    @VideoProcessing.extractDetectionData plain_host
      (Wire.parse Sample.left_hand_C) = Return d
    /\ Wire.unit_interval (VideoProcessing.confidenceNum d) = true
    /\ VideoProcessing.handDetected d ∈ [js "Left"; js "Right"; js "—"].
Proof.
  apply (@ranges_of_derived_record plain_host Sample.left_hand_C).
  - intros c Hc. injection Hc as <-. vm_compute. reflexivity.
  - intros h Hh. injection Hh as <-. vm_compute. apply list_elem_of_here.
Defined.

(** * Properties of the upload and of the capture button *)

Section Upload.

Import VideoProcessing.

Context `{Platform}.

Local Open Scope js_scope.

(** [handleServerError] never returns normally. *)
Lemma handleServerError_throws (response : Response) :
  exists e, fst (handleServerError response) = Throw e.
Proof.
  unfold handleServerError.
  destruct (json response) as [payload response1].
  destruct (p <- payload ;; describe p) as [detail | e].
  - by eexists.
  - destruct (text response1) as [[raw | e'] response2]; by eexists.
Qed.


(** A JSON object without [detail]: the error carries the status line and
    the serialised payload. *)
Lemma handleServerError_payload (s : N) (t : jsstring)
    (props : gmap jsstring value) :
  props !! js "detail" = None ->
  let response := {| status := s; body := Stream t (Some (VObj props));
                     bodyUsed := false |} in
  fst (handleServerError response)
  = Throw (Error (statusLine response ++ js ": "
                  ++ JSON_stringify (VObj props))).
Proof.
  intros Hdetail response. unfold handleServerError, json, describe.
  cbn [body bodyUsed response bind get]. rewrite Hdetail. reflexivity.
Qed.

(** A response without a body: the text read in the handler is empty. *)
Lemma handleServerError_no_body (s : N) :
  let response := {| status := s; body := NoBody; bodyUsed := false |} in
  fst (handleServerError response)
  = Throw (Error (statusLine response ++ js ": ")).
Proof. reflexivity. Qed.

(** The response [422] with the body [{"detail": "bad image"}]. *)
Lemma handleServerError_json_422 :
  fst (handleServerError Sample.json_422)
  = Throw (Error (js "HTTP 422: bad image")).
Proof. vm_compute. reflexivity. Qed.

Lemma contains_prefix (s t : jsstring) : contains (s ++ t) s.
Proof. exists [], t. reflexivity. Qed.

Lemma contains_suffix (s t : jsstring) : contains (s ++ t) t.
Proof. exists s, []. by rewrite app_nil_r. Qed.

Lemma detail_message_contains (line d : jsstring) :
  contains (line ++ js ": " ++ d) line /\ contains (line ++ js ": " ++ d) d.
Proof.
  split; [apply contains_prefix | ].
  rewrite app_assoc. apply contains_suffix.
Qed.

(** C7 fails on the code for a body that is not JSON: [response.json()] has
    read the stream before it rejects, so [response.text()] in the handler
    rejects in turn, and what is thrown is the browser's [TypeError], not
    the error with the status line and the raw text. *)
Theorem handleServerError_loses_raw_text (s : N) (t : jsstring) :
  handleServerError {| status := s; body := Stream t None; bodyUsed := false |}
  = (Throw (TypeError BodyUsed),
     {| status := s; body := Stream t None; bodyUsed := true |}).
Proof. reflexivity. Qed.

(** The same happens for the JSON body [null]: reading [detail] throws
    inside the [try] block. *)
Lemma handleServerError_null_payload (s : N) (t : jsstring) :
  fst (handleServerError {| status := s; body := Stream t (Some VNull);
                            bodyUsed := false |})
  = Throw (TypeError BodyUsed).
Proof. reflexivity. Qed.

(** Seen from the upload: a plain-text 500 ends the upload with that
    [TypeError], after the request went out. *)
Lemma upload_of_plain_500 (b : Blob) (letter : jsstring) (w : World) :
  fst (sendImageToServer Sample.failing (Some b) letter w)
  = Throw (TypeError BodyUsed)
  /\ requests (snd (sendImageToServer Sample.failing (Some b) letter w))
     = requests w
       ++ [{| url := js "http://127.0.0.1:8000/process/";
              method := js "POST";
              image := b;
              filename := letter ++ js "_1b4e28ba.png";
              label := letter |}].
Proof. split; reflexivity. Qed.

Lemma captureSnapshot_unselected (o : Outside) (w : World) :
  checked w = None ->
  captureSnapshot o w
  = with_alerts (alerts w ++ [js "Please select a letter before capturing."]) w.
Proof.
  intros Hnone. unfold captureSnapshot, getSelectedLetter.
  rewrite Hnone. reflexivity.
Qed.

(** C8: a click on the capture button while no letter radio is checked
    shows the alert and does nothing else: the canvas keeps its picture, no
    request is sent, and [MSL_STATE], the result elements, the console and
    the state store are as before. *)
Theorem capture_without_letter_only_alerts (o : Outside) (w : World) :
  checked w = None ->
  let w' := captureSnapshot o w in
  alerts w' = alerts w ++ [js "Please select a letter before capturing."]
  /\ offscreen w' = offscreen w
  /\ requests w' = requests w
  /\ MSL_STATE w' = MSL_STATE w
  /\ resultLetter w' = resultLetter w
  /\ resultConfidence w' = resultConfidence w
  /\ resultHand w' = resultHand w
  /\ console w' = console w
  /\ appState w' = appState w
  /\ video w' = video w
  /\ checked w' = checked w.
Proof.
  intros Hnone w'. subst w'.
  rewrite (captureSnapshot_unselected o w Hnone).
  repeat (split; [reflexivity | ]). reflexivity.
Qed.

End Upload.

Lemma capture_without_letter_only_alerts_example :
  let w' := @VideoProcessing.captureSnapshot plain_host Sample.answering
              Sample.no_letter in
  VideoProcessing.alerts w'
  = VideoProcessing.alerts Sample.no_letter
    ++ [js "Please select a letter before capturing."]
  /\ VideoProcessing.offscreen w' = VideoProcessing.offscreen Sample.no_letter
  /\ VideoProcessing.requests w' = VideoProcessing.requests Sample.no_letter
  /\ VideoProcessing.MSL_STATE w' = VideoProcessing.MSL_STATE Sample.no_letter
  /\ VideoProcessing.resultLetter w'
     = VideoProcessing.resultLetter Sample.no_letter
  /\ VideoProcessing.resultConfidence w'
     = VideoProcessing.resultConfidence Sample.no_letter
  /\ VideoProcessing.resultHand w' = VideoProcessing.resultHand Sample.no_letter
  /\ VideoProcessing.console w' = VideoProcessing.console Sample.no_letter
  /\ VideoProcessing.appState w' = VideoProcessing.appState Sample.no_letter
  /\ VideoProcessing.video w' = VideoProcessing.video Sample.no_letter
  /\ VideoProcessing.checked w' = VideoProcessing.checked Sample.no_letter.
Proof.
  apply (@capture_without_letter_only_alerts plain_host Sample.answering
           Sample.no_letter).
  reflexivity.
Defined.

(** With a letter checked the same click draws the frame, sends one request
    and shows the result. *)
Lemma capture_with_letter_A :
  let w' := @VideoProcessing.captureSnapshot plain_host Sample.answering
              Sample.letter_A in
  VideoProcessing.alerts w' = []
  /\ VideoProcessing.offscreen w'
     = Some {| VideoProcessing.width := 640; VideoProcessing.height := 480;
               VideoProcessing.picture := Some 7%N |}
  /\ VideoProcessing.requests w'
     = [{| VideoProcessing.url := js "https://msl.example/process/";
           VideoProcessing.method := js "POST";
           VideoProcessing.image := {| VideoProcessing.png := Some 7%N |};
           VideoProcessing.filename := js "A_1b4e28ba.png";
           VideoProcessing.label := js "A" |}]
  /\ VideoProcessing.resultLetter w' = Some (js "Letter detected: A")
  /\ VideoProcessing.resultConfidence w' = Some (js "Confidence: 87%")
  /\ VideoProcessing.resultHand w' = Some (js "Hand detected: Right").
Proof. vm_compute. repeat split. Qed.

(** When the server answers with the plain-text 500, all the user gets is
    one console line with the browser's message for the second read. *)
Lemma capture_with_plain_500 :
  let w' := @VideoProcessing.captureSnapshot plain_host Sample.failing
              Sample.letter_A in
  VideoProcessing.console w'
  = [VideoProcessing.ErrorLine (js "Error during capture:")
       (@native_message plain_host BodyUsed)]
  /\ VideoProcessing.MSL_STATE w' = None
  /\ VideoProcessing.resultLetter w' = Some [].
Proof. vm_compute. repeat split. Qed.

(** * Further properties of the state store *)

Section StoreRuns.

Import State State.AppState Calls.

Lemma call_last_seen (o : Op) (s : Store) :
  last_seen s = state s -> last_seen (call o s) = state (call o s).
Proof.
  unfold last_seen. intros Hsync.
  destruct o as [next | r | message | ]; cbn [call].
  - unfold setStatus. destruct (bool_decide (next = status (state s))).
    + exact Hsync.
    + cbn. by rewrite last_snoc.
  - cbn. by rewrite last_snoc.
  - cbn. by rewrite last_snoc.
  - cbn. by rewrite last_snoc.
Qed.

(** X1: listeners are never behind.  After every sequence of calls on the
    fresh store, the state is the one the latest [stateChange] event
    carried, or the initial state when no event was dispatched. *)
Theorem listeners_see_current_state (ops : list Op) :
  last_seen (run ops fresh) = state (run ops fresh).
Proof.
  assert (Hall : forall s, last_seen s = state s ->
                           last_seen (run ops s) = state (run ops s)).
  { induction ops as [ | o ops IH]; intros s Hs; [exact Hs | ].
    rewrite run_cons. apply IH. by apply call_last_seen. }
  apply Hall. reflexivity.
Qed.

(** X2: [state.result] is assigned by [setResult] and [reset] only: a
    sequence of [setStatus] and [setError] calls keeps the result, so an
    error leaves the result of an earlier detection in place. *)
Theorem result_survives_status_and_error (ops : list Op) (s : Store) :
  existsb writes_result ops = false ->
  result (state (run ops s)) = result (state s).
Proof.
  revert s. induction ops as [ | o ops IH]; intros s Hnone.
  - reflexivity.
  - cbn in Hnone. apply orb_false_iff in Hnone as [Ho Hrest].
    rewrite run_cons, (IH _ Hrest).
    destruct o as [next | r | message | ]; try discriminate.
    + cbn. unfold setStatus.
      destruct (bool_decide (next = status (state s))); reflexivity.
    + reflexivity.
Qed.

Lemma result_survives_status_and_error_example :
  result (state (run [SetError (Some (js "camera lost")); SetStatus loading]
                   (setResult (Some {| detectedLetter := js "A";
                                       confidenceNum := Num.lit 0.873;
                                       handDetected := js "Right" |}) fresh)))
  = Some {| detectedLetter := js "A";
            confidenceNum := Num.lit 0.873;
            handDetected := js "Right" |}.
Proof.
  apply (result_survives_status_and_error
           [SetError (Some (js "camera lost")); SetStatus loading]).
  reflexivity.
Defined.

(** X3: [state.errorMessage] is assigned by [setError] and [reset] only: a
    sequence of [setStatus] and [setResult] calls keeps the message, whatever
    status it ends in. *)
Theorem message_survives_status_and_result (ops : list Op) (s : Store) :
  existsb writes_message ops = false ->
  errorMessage (state (run ops s)) = errorMessage (state s).
Proof.
  revert s. induction ops as [ | o ops IH]; intros s Hnone.
  - reflexivity.
  - cbn in Hnone. apply orb_false_iff in Hnone as [Ho Hrest].
    rewrite run_cons, (IH _ Hrest).
    destruct o as [next | r | message | ]; try discriminate.
    + cbn. unfold setStatus.
      destruct (bool_decide (next = status (state s))); reflexivity.
    + reflexivity.
Qed.

Lemma message_survives_status_and_result_example :
  errorMessage
    (state (run [SetStatus loading; SetResult None; SetStatus requestDone]
              (setError (Some (js "camera lost")) fresh)))
  = Some (js "camera lost").
Proof.
  apply (message_survives_status_and_result
           [SetStatus loading; SetResult None; SetStatus requestDone]).
  reflexivity.
Defined.

(** X4: only [setStatus] compares before it dispatches.  A sequence of
    [setResult], [setError] and [reset] calls dispatches one event per call,
    also when a call assigns what the state already holds. *)
Theorem unconditional_calls_dispatch_each_time (ops : list Op) (s : Store) :
  forallb unconditional ops = true ->
  length (dispatched (run ops s)) = length (dispatched s) + length ops.
Proof.
  revert s. induction ops as [ | o ops IH]; intros s Hall.
  - cbn. lia.
  - cbn in Hall. apply andb_true_iff in Hall as [Ho Hrest].
    rewrite run_cons, (IH _ Hrest).
    destruct o as [next | r | message | ]; try discriminate;
      cbn; rewrite length_app; cbn; lia.
Qed.

Lemma unconditional_calls_dispatch_each_time_example :
  length (dispatched (run [Reset; Reset; SetResult None; SetError None] fresh))
  = length (dispatched fresh) + 4.
Proof.
  apply (unconditional_calls_dispatch_each_time
           [Reset; Reset; SetResult None; SetError None] fresh).
  reflexivity.
Defined.

(** X5: the guard of the invariant is exact.  A sequence of calls from the
    fresh store in which [setStatus] is once given a status other than
    ["error"] while [errorMessage] is non-null passes through a state that
    has a message and a status other than ["error"]. *)
Theorem unguarded_runs_break_error_status (ops : list Op) :
  guarded ops fresh = false ->
  Exists (fun v => ~ consistent (state v)) (visited ops fresh).
Proof.
  apply unguarded_visited_inconsistent. intros Hmsg. contradiction.
Qed.

Lemma unguarded_runs_break_error_status_example :
  Exists (fun v => ~ consistent (state v))
    (visited [SetStatus loading; SetError (Some (js "camera lost"));
              SetResult None; SetStatus requestDone] fresh).
Proof.
  apply (unguarded_runs_break_error_status
           [SetStatus loading; SetError (Some (js "camera lost"));
            SetResult None; SetStatus requestDone]).
  reflexivity.
Defined.

End StoreRuns.

(** * Further properties of the capture flow *)

Section CaptureFrames.

Import VideoProcessing Page.

Context `{Platform}.

Local Open Scope page_scope.

Lemma keeps_ret {T A : Type} (f : World -> T) (a : A) : keeps f (ret a).
Proof. intros w. reflexivity. Qed.

Lemma keeps_lift {T A : Type} (f : World -> T) (c : completion A) :
  keeps f (lift c).
Proof. intros w. reflexivity. Qed.

Lemma keeps_andThen {T A B : Type} (f : World -> T) (a : Action A)
    (k : A -> Action B) :
  keeps f a -> (forall x, keeps f (k x)) -> keeps f (andThen a k).
Proof.
  intros Ha Hk w. unfold andThen.
  specialize (Ha w). destruct (a w) as [[x | e] w1]; cbn [snd] in *.
  - by rewrite Hk.
  - exact Ha.
Qed.

Lemma sendImageToServer_keeps {T : Type} (f : World -> T) (o : Outside)
    (blob : option Blob) (letter : jsstring) :
  (forall request, keeps f (fetch o request)) ->
  keeps f (sendImageToServer o blob letter).
Proof.
  intros Hfetch. unfold sendImageToServer.
  apply keeps_andThen; [apply keeps_lift | intros file].
  apply keeps_andThen; [apply Hfetch | intros response].
  destruct (ok response); [apply keeps_ret | ].
  apply keeps_andThen; [apply keeps_lift | intros; apply keeps_ret].
Qed.

Lemma processServerResponse_keeps {T : Type} (f : World -> T)
    (response : Response) :
  (forall what v, keeps f (console_log what v)) ->
  keeps f (processServerResponse response).
Proof.
  intros Hlog. unfold processServerResponse.
  apply keeps_andThen; [apply keeps_lift | intros record].
  apply keeps_andThen; [apply Hlog | intros; apply keeps_lift].
Qed.

Lemma captureSnapshot_keeps {T : Type} (f : World -> T) (o : Outside) :
  (forall message, keeps f (alert message)) ->
  (forall what message, keeps f (console_error what message)) ->
  (forall what v, keeps f (console_log what v)) ->
  keeps f captureVideoFrame ->
  (forall request, keeps f (fetch o request)) ->
  (forall d, keeps f (updateResultsUI d)) ->
  forall w, f (captureSnapshot o w) = f w.
Proof.
  intros Halert Herror Hlog Hframe Hfetch Hshow w.
  unfold captureSnapshot.
  destruct (getSelectedLetter w) as [letter | ]; [ | apply Halert].
  match goal with
  | |- context [andThen ?a ?k w] =>
      assert (Hflow : keeps f (andThen a k)); [ | specialize (Hflow w);
        destruct (andThen a k w) as [[u | e] w1]; cbn [snd] in Hflow ]
  end.
  - apply keeps_andThen; [exact Hframe | intros blob].
    apply keeps_andThen; [by apply sendImageToServer_keeps | intros response].
    apply keeps_andThen; [by apply processServerResponse_keeps | exact Hshow].
  - exact Hflow.
  - rewrite <- Hflow. apply Herror.
Qed.

Lemma show_keeps_bystanders (element : World -> option jsstring)
    (update : option jsstring -> World -> World) (text : completion jsstring) :
  (forall t w, bystanders (update t w) = bystanders w) ->
  keeps bystanders (show element update text).
Proof.
  intros Hupdate w. unfold show.
  destruct (element w); [ | reflexivity].
  destruct text; [apply Hupdate | reflexivity].
Qed.

Lemma updateResultsUI_keeps_bystanders (d : Detection) :
  keeps bystanders (updateResultsUI d).
Proof.
  unfold updateResultsUI.
  apply keeps_andThen; [intros w; reflexivity | intros _].
  apply keeps_andThen; [by apply show_keeps_bystanders | intros _].
  apply keeps_andThen; [by apply show_keeps_bystanders | intros _].
  by apply show_keeps_bystanders.
Qed.

Lemma captureVideoFrame_keeps_bystanders : keeps bystanders captureVideoFrame.
Proof.
  intros w. unfold captureVideoFrame.
  destruct (offscreen w); [ | reflexivity].
  destruct (video w); reflexivity.
Qed.

(** X6: the capture flow writes neither the state store, nor the radio
    group, nor the video element: whatever a click on the capture button
    leads to, [AppState] holds the state and the event log it held before. *)
Theorem capture_leaves_store_alone (o : Outside) (w : World) :
  appState (captureSnapshot o w) = appState w
  /\ checked (captureSnapshot o w) = checked w
  /\ video (captureSnapshot o w) = video w.
Proof.
  assert (Hsame : bystanders (captureSnapshot o w) = bystanders w).
  { apply captureSnapshot_keeps; try (intros; intros w0; reflexivity).
    - apply captureVideoFrame_keeps_bystanders.
    - apply updateResultsUI_keeps_bystanders. }
  unfold bystanders in Hsame. by injection Hsame as -> -> ->.
Qed.

End CaptureFrames.

(** * The stages of a capture *)

Section CaptureStages.

Import VideoProcessing Page.

Context `{Platform}.

Local Open Scope page_scope.

Lemma sendImageToServer_outcome (o : Outside) (b : Blob) (letter : jsstring) (w : World) :
  sendImageToServer o (Some b) letter w
  = (match server o (request_of o b letter) with
     | Return response =>
         if ok response then Return response
         else bind (fst (handleServerError response)) (fun _ => Return response)
     | Throw e => Throw e
     end,
     with_requests (requests w ++ [request_of o b letter]) w).
Proof.
  unfold sendImageToServer, andThen, lift, fetch, request_of.
  destruct (server o _) as [response | e]; [ | reflexivity].
  destruct (ok response); [reflexivity | ].
  destruct (fst (handleServerError response)); reflexivity.
Qed.

Lemma sendImageToServer_no_blob (o : Outside) (letter : jsstring) (w : World) :
  sendImageToServer o None letter w = (Throw (TypeError NotABlob), w).
Proof. reflexivity. Qed.

Lemma andThen_run {A B : Type} (a : Action A) (k : A -> Action B) (w : World) :
  andThen a k w
  = match a w with
    | (Return x, w1) => k x w1
    | (Throw e, w1) => (Throw e, w1)
    end.
Proof. reflexivity. Qed.

(** The world a click leaves when a letter is chosen, in terms of the
    flow's three stages. *)
Lemma captureSnapshot_selected (o : Outside) (w : World) (letter : jsstring) :
  getSelectedLetter w = Some letter ->
  captureSnapshot o w
  = match (blob <- captureVideoFrame ;;
           response <- sendImageToServer o blob letter ;;
           detectionResult <- processServerResponse response ;;
           updateResultsUI detectionResult) w with
    | (Return _, w1) => w1
    | (Throw err, w1) =>
        with_console
          (console w1 ++ [ErrorLine (js "Error during capture:") (message_of err)])
          w1
    end.
Proof. intros Hsel. unfold captureSnapshot. rewrite Hsel. reflexivity. Qed.

Lemma captureVideoFrame_requests : keeps requests captureVideoFrame.
Proof.
  intros w. unfold captureVideoFrame.
  destruct (offscreen w); [ | reflexivity]. destruct (video w); reflexivity.
Qed.

Lemma show_keeps {T : Type} (f : World -> T) (element : World -> option jsstring)
    (update : option jsstring -> World -> World) (text : completion jsstring) :
  (forall t w, f (update t w) = f w) ->
  keeps f (show element update text).
Proof.
  intros Hupdate w. unfold show.
  destruct (element w); [ | reflexivity].
  destruct text; [apply Hupdate | reflexivity].
Qed.

Lemma updateResultsUI_keeps {T : Type} (f : World -> T) (d : Detection) :
  (forall m w, f (with_MSL_STATE m w) = f w) ->
  (forall t w, f (with_resultLetter t w) = f w) ->
  (forall t w, f (with_resultConfidence t w) = f w) ->
  (forall t w, f (with_resultHand t w) = f w) ->
  keeps f (updateResultsUI d).
Proof.
  intros Hm Hl Hc Hh. unfold updateResultsUI.
  apply keeps_andThen; [intros w; apply Hm | intros _].
  apply keeps_andThen; [by apply show_keeps | intros _].
  apply keeps_andThen; [by apply show_keeps | intros _].
  by apply show_keeps.
Qed.

(** X8: one click sends at most one request.  Either the list of requests is
    as before, or a letter was chosen and exactly the request for that letter
    was added at its end. *)
Theorem capture_sends_at_most_one_request (o : Outside) (w : World) :
  requests (captureSnapshot o w) = requests w
  \/ exists letter b,
       getSelectedLetter w = Some letter
       /\ requests (captureSnapshot o w) = requests w ++ [request_of o b letter].
Proof.
  destruct (getSelectedLetter w) as [letter | ] eqn:Hsel.
  2:{ left. unfold captureSnapshot. rewrite Hsel. reflexivity. }
  rewrite (captureSnapshot_selected o w letter Hsel).
  rewrite andThen_run.
  pose proof (captureVideoFrame_requests w) as Hframe.
  destruct (captureVideoFrame w) as [[blob | e] w1]; cbn [snd] in Hframe.
  2:{ left. exact Hframe. }
  rewrite andThen_run.
  destruct blob as [b | ].
  2:{ left. rewrite sendImageToServer_no_blob. exact Hframe. }
  right. exists letter, b. split; [reflexivity | ].
  rewrite sendImageToServer_outcome.
  set (w2 := with_requests _ w1).
  assert (Hw2 : requests w2 = requests w ++ [request_of o b letter]).
  { subst w2. cbn [requests with_requests]. by rewrite Hframe. }
  rewrite <- Hw2.
  destruct (match server o (request_of o b letter) with
            | Return response => _
            | Throw e => _
            end) as [response | e]; [ | reflexivity].
  assert (Hrest : keeps requests
            (detectionResult <- processServerResponse response ;;
             updateResultsUI detectionResult)).
  { apply keeps_andThen.
    - apply processServerResponse_keeps. intros what v w0. reflexivity.
    - intros d. apply updateResultsUI_keeps; reflexivity. }
  specialize (Hrest w2).
  destruct ((detectionResult <- processServerResponse response ;;
             updateResultsUI detectionResult) w2) as [[u | e] w3];
    cbn [snd] in Hrest; exact Hrest.
Qed.

Lemma captureVideoFrame_ready (w : World) :
  ready w = true ->
  exists canvas frame,
    offscreen w = Some canvas /\ video w = Some frame
    /\ captureVideoFrame w
       = (Return (Some {| png := Some frame |}),
          with_offscreen (Some {| width := width canvas;
                                  height := height canvas;
                                  picture := Some frame |}) w).
Proof.
  unfold ready, captureVideoFrame. intros Hready.
  destruct (offscreen w) as [canvas | ]; [ | discriminate].
  destruct (video w) as [frame | ]; [ | discriminate].
  exists canvas, frame. split; [reflexivity | ]. split; [reflexivity | ].
  apply negb_true_iff in Hready. by rewrite Hready.
Qed.

Lemma captureVideoFrame_not_ready (w : World) :
  ready w = false ->
  exists w1, ((exists e, captureVideoFrame w = (Throw e, w1))
              \/ captureVideoFrame w = (Return None, w1))
             /\ requests w1 = requests w /\ results w1 = results w
             /\ console w1 = console w /\ alerts w1 = alerts w.
Proof.
  unfold ready, captureVideoFrame. intros Hready.
  destruct (offscreen w) as [canvas | ].
  2:{ exists w. split; [left; by eexists | repeat split]. }
  destruct (video w) as [frame | ].
  2:{ exists w. split; [left; by eexists | repeat split]. }
  apply negb_false_iff in Hready. rewrite Hready.
  eexists. split; [by right | repeat split].
Qed.

Lemma captureSnapshot_not_ready (o : Outside) (w : World)
    (letter : jsstring) :
  getSelectedLetter w = Some letter ->
  ready w = false ->
  requests (captureSnapshot o w) = requests w
  /\ results (captureSnapshot o w) = results w
  /\ alerts (captureSnapshot o w) = alerts w
  /\ exists message,
       console (captureSnapshot o w)
       = console w ++ [ErrorLine (js "Error during capture:") message].
Proof.
  intros Hsel Hready.
  rewrite (captureSnapshot_selected o w letter Hsel), andThen_run.
  destruct (captureVideoFrame_not_ready w Hready)
    as (w1 & [[e Hrun] | Hrun] & Hreq & Hres & Hcon & Hal); rewrite Hrun.
  - cbn [requests results alerts console with_console].
    rewrite <- Hreq, <- Hcon, <- Hal. split; [reflexivity | ].
    split; [exact Hres | ]. split; [reflexivity | by eexists].
  - rewrite andThen_run, sendImageToServer_no_blob.
    cbn [requests results alerts console with_console].
    rewrite <- Hreq, <- Hcon, <- Hal. split; [reflexivity | ].
    split; [exact Hres | ]. split; [reflexivity | by eexists].
Qed.

(** X9: a click with a letter chosen while there is nothing to encode (the
    offscreen canvas or the video element is not set yet, or the canvas has
    no pixels) sends no request and shows no alert; the results stay, and
    the console gets one error line. *)
Theorem capture_without_picture_sends_nothing (o : Outside) (w : World)
    (letter : jsstring) :
  getSelectedLetter w = Some letter ->
  ready w = false ->
  requests (captureSnapshot o w) = requests w
  /\ results (captureSnapshot o w) = results w
  /\ alerts (captureSnapshot o w) = alerts w
  /\ exists message,
       console (captureSnapshot o w)
       = console w ++ [ErrorLine (js "Error during capture:") message].
Proof. apply captureSnapshot_not_ready. Qed.

(** X10: [sendImageToServer] returns a response only when the server
    answered with a 2xx status, and then it is the server's response; for
    any other status it throws. *)
Theorem upload_returns_ok_responses_only (o : Outside) (blob : option Blob)
    (letter : jsstring) (w : World) (response : Response) :
  fst (sendImageToServer o blob letter w) = Return response ->
  ok response = true
  /\ exists b, blob = Some b
               /\ server o (request_of o b letter) = Return response.
Proof.
  destruct blob as [b | ]; [ | discriminate].
  rewrite sendImageToServer_outcome. cbn [fst].
  destruct (server o (request_of o b letter)) as [r | e] eqn:Hans;
    [ | discriminate].
  destruct (ok r) eqn:Hok.
  - intros Hret. injection Hret as ->. split; [exact Hok | by exists b].
  - destruct (handleServerError_throws r) as [e ->]. discriminate.
Qed.

(** X11: when the server never answers with a 2xx status (it fails, or the
    request does not get through), a click changes neither [MSL_STATE] nor
    the text of a result element; with a letter chosen it shows no alert and
    adds exactly one error line to the console. *)
Theorem failed_upload_leaves_results (o : Outside) (w : World) :
  (forall request response,
     server o request = Return response -> ok response = false) ->
  results (captureSnapshot o w) = results w
  /\ forall letter,
       getSelectedLetter w = Some letter ->
       alerts (captureSnapshot o w) = alerts w
       /\ exists message,
            console (captureSnapshot o w)
            = console w ++ [ErrorLine (js "Error during capture:") message].
Proof.
  intros Hserver.
  destruct (getSelectedLetter w) as [letter | ] eqn:Hsel.
  2:{ split; [ | discriminate]. unfold captureSnapshot. by rewrite Hsel. }
  destruct (ready w) eqn:Hready.
  2:{ destruct (captureSnapshot_not_ready o w letter Hsel Hready)
        as (_ & Hres & Hal & Hcon).
      split; [exact Hres | ]. intros ? _. by split. }
  destruct (captureVideoFrame_ready w Hready)
    as (canvas & frame & _ & _ & Hrun).
  rewrite (captureSnapshot_selected o w letter Hsel), andThen_run, Hrun.
  rewrite andThen_run, sendImageToServer_outcome.
  assert (Hthrows : exists e,
    match server o (request_of o {| png := Some frame |} letter) with
    | Return response =>
        if ok response then Return response
        else bind (fst (handleServerError response)) (fun _ => Return response)
    | Throw e => Throw e
    end = Throw e).
  { destruct (server o _) as [r | e] eqn:Hans; [ | by eexists].
    rewrite (Hserver _ _ Hans).
    destruct (handleServerError_throws r) as [e ->]. by eexists. }
  destruct Hthrows as [e ->].
  split; [reflexivity | ]. intros ? _. split; [reflexivity | by eexists].
Qed.

Lemma captureVideoFrame_draws (w : World) (canvas : Canvas) (frame : Frame) :
  offscreen w = Some canvas ->
  video w = Some frame ->
  exists blob,
    captureVideoFrame w
    = (Return blob,
       with_offscreen (Some {| width := width canvas; height := height canvas;
                               picture := Some frame |}) w).
Proof.
  intros Hcanvas Hvideo. unfold captureVideoFrame. rewrite Hcanvas, Hvideo.
  by eexists.
Qed.

(** X12: with a letter chosen, the current video frame is drawn on the
    offscreen canvas before anything else, and stays there whatever the
    upload does afterwards. *)
Theorem capture_keeps_the_frame (o : Outside) (w : World) (letter : jsstring)
    (canvas : Canvas) (frame : Frame) :
  getSelectedLetter w = Some letter ->
  offscreen w = Some canvas ->
  video w = Some frame ->
  offscreen (captureSnapshot o w)
  = Some {| width := width canvas; height := height canvas;
            picture := Some frame |}.
Proof.
  intros Hsel Hcanvas Hvideo.
  rewrite (captureSnapshot_selected o w letter Hsel), andThen_run.
  destruct (captureVideoFrame_draws w canvas frame Hcanvas Hvideo)
    as [blob ->].
  set (w1 := with_offscreen _ w).
  assert (Hrest : keeps offscreen
            (response <- sendImageToServer o blob letter ;;
             detectionResult <- processServerResponse response ;;
             updateResultsUI detectionResult)).
  { apply keeps_andThen.
    - apply sendImageToServer_keeps. intros request w0. reflexivity.
    - intros response. apply keeps_andThen.
      + apply processServerResponse_keeps. intros what v w0. reflexivity.
      + intros d. apply updateResultsUI_keeps; reflexivity. }
  specialize (Hrest w1).
  destruct ((response <- sendImageToServer o blob letter ;;
             detectionResult <- processServerResponse response ;;
             updateResultsUI detectionResult) w1) as [[u | e] w2];
    cbn [snd] in Hrest.
  - rewrite Hrest. reflexivity.
  - cbn [offscreen with_console]. rewrite Hrest. reflexivity.
Qed.

Lemma letter_is_text (r : Wire.SuccessRecord) :
  Wire.letter r = VStr (letter_text r).
Proof.
  unfold Wire.letter, letter_text.
  destruct (Wire.detected_as r), (Wire.predicted_as r); reflexivity.
Qed.

Lemma updateResultsUI_shows (d : Detection) (s : jsstring) (w : World) :
  detectedLetter d = VStr s ->
  exists w',
    updateResultsUI d w = (Return tt, w')
    /\ MSL_STATE w' = Some (snapshot_of d)
    /\ resultLetter w'
       = match resultLetter w with
         | Some _ => Some (js "Letter detected: " ++ s)
         | None => None
         end
    /\ resultConfidence w'
       = match resultConfidence w with
         | Some _ => Some (js "Confidence: " ++ confidencePct d)
         | None => None
         end
    /\ resultHand w'
       = match resultHand w with
         | Some _ => Some (js "Hand detected: " ++ handDetected d)
         | None => None
         end
    /\ console w' = console w /\ alerts w' = alerts w
    /\ requests w' = requests w /\ offscreen w' = offscreen w.
Proof.
  intros Hletter.
  destruct w as [chk vid off reqs als con msl rl rc rh app].
  unfold updateResultsUI, andThen, show, snapshot_of. rewrite Hletter.
  cbn [ToString bind resultLetter resultConfidence resultHand
       with_MSL_STATE with_resultLetter with_resultConfidence with_resultHand].
  destruct rl, rc, rh;
    cbn [resultLetter resultConfidence resultHand
         with_MSL_STATE with_resultLetter with_resultConfidence with_resultHand];
    eexists; (split; [reflexivity | ]);
    repeat (split; [reflexivity | ]); reflexivity.
Qed.

(** X13: when the page is ready and the server answers 2xx with a success
    response, the click stores the derived record in [MSL_STATE], writes the
    three texts into the result elements that exist and skips the missing
    ones, logs the parsed record once, and shows no alert. *)
Theorem successful_capture_shows_derived_record (o : Outside) (w : World)
    (letter : jsstring) (r : Wire.SuccessRecord) (code : N) (t : jsstring) :
  getSelectedLetter w = Some letter ->
  ready w = true ->
  (forall request,
     server o request
     = Return {| status := code; body := Stream t (Some (Wire.parse r));
                 bodyUsed := false |}) ->
  (200 <=? code)%N && (code <=? 299)%N = true ->
  MSL_STATE (captureSnapshot o w) = Some (snapshot_of (Wire.derived r))
  /\ resultLetter (captureSnapshot o w)
     = match resultLetter w with
       | Some _ => Some (js "Letter detected: " ++ letter_text r)
       | None => None
       end
  /\ resultConfidence (captureSnapshot o w)
     = match resultConfidence w with
       | Some _ =>
           Some (js "Confidence: " ++ confidencePct (Wire.derived r))
       | None => None
       end
  /\ resultHand (captureSnapshot o w)
     = match resultHand w with
       | Some _ => Some (js "Hand detected: " ++ handDetected (Wire.derived r))
       | None => None
       end
  /\ console (captureSnapshot o w)
     = console w ++ [Log (js "✅ Detected hands—metadata:") (Wire.parse r)]
  /\ alerts (captureSnapshot o w) = alerts w.
Proof.
  intros Hsel Hready Hserver Hcode.
  assert (Hflow : exists w3,
    captureSnapshot o w
    = match updateResultsUI (Wire.derived r) w3 with
      | (Return _, w4) => w4
      | (Throw err, w4) =>
          with_console
            (console w4
             ++ [ErrorLine (js "Error during capture:") (message_of err)]) w4
      end
    /\ results w3 = results w /\ alerts w3 = alerts w
    /\ console w3
       = console w ++ [Log (js "✅ Detected hands—metadata:") (Wire.parse r)]).
  { destruct (captureVideoFrame_ready w Hready)
      as (canvas & frame & _ & _ & Hrun).
    rewrite (captureSnapshot_selected o w letter Hsel), andThen_run, Hrun.
    rewrite andThen_run, sendImageToServer_outcome, Hserver.
    unfold ok. cbn [status]. rewrite Hcode.
    rewrite andThen_run.
    unfold processServerResponse, andThen, lift, console_log, json.
    cbn [body bodyUsed fst]. rewrite extract_parse.
    eexists. split; [reflexivity | ]. repeat split. }
  destruct Hflow as (w3 & -> & Hres & Hal3 & Hcon3).
  destruct (updateResultsUI_shows (Wire.derived r) (letter_text r) w3
              (letter_is_text r))
    as (w4 & -> & Hmsl & Hl & Hc & Hh & Hcon & Hal & _ & _).
  unfold results in Hres. injection Hres as Hm3 Hl3 Hc3 Hh3.
  rewrite Hmsl, Hl, Hc, Hh, Hcon, Hal, Hl3, Hc3, Hh3, Hcon3, Hal3.
  repeat (split; [reflexivity | ]). reflexivity.
Qed.
(** X7: a checked radio whose value is the empty string counts as no
    choice: the click shows the alert and changes nothing else. *)
Theorem capture_with_empty_value_only_alerts (o : Outside) (w : World) :
  checked w = Some [] ->
  captureSnapshot o w
  = with_alerts (alerts w ++ [js "Please select a letter before capturing."]) w.
Proof.
  intros Hempty. unfold captureSnapshot, getSelectedLetter.
  rewrite Hempty. reflexivity.
Qed.

Lemma before_spec (sep : N) (s : jsstring) :
  (sep ∉ before sep s)
  /\ (s = before sep s \/ exists rest, s = before sep s ++ sep :: rest).
Proof.
  induction s as [ | c s [IHout IHsplit]]; cbn.
  - split; [apply not_elem_of_nil | by left].
  - destruct (N.eqb_spec c sep) as [-> | Hne].
    + split; [apply not_elem_of_nil | right; by exists s].
    + split.
      * intros [Heq | Hin]%elem_of_cons; [congruence | contradiction].
      * destruct IHsplit as [Hall | [rest Hrest]].
        -- left. by rewrite <- Hall.
        -- right. exists rest. by rewrite Hrest at 1.
Qed.

(** X14: the request of an upload.  It is a POST to the API address followed
    by [/process/], labelled with the letter, and its file is named
    [letter_p.png], where [p] is the UUID up to its first hyphen: [p] holds
    no hyphen, and the UUID is [p] alone or [p], a hyphen and a rest. *)
Theorem upload_request_shape (o : Outside) (b : Blob) (letter : jsstring)
    (w : World) :
  exists p,
    requests (snd (sendImageToServer o (Some b) letter w))
    = requests w
      ++ [{| url := API_URL o ++ js "/process/";
             method := js "POST";
             image := b;
             filename := letter ++ js "_" ++ p ++ js ".png";
             label := letter |}]
    /\ (45%N ∉ p)
    /\ (randomUUID o = p \/ exists rest, randomUUID o = p ++ 45%N :: rest).
Proof.
  exists (before 45%N (randomUUID o)).
  rewrite sendImageToServer_outcome. split; [reflexivity | ].
  apply before_spec.
Qed.

Lemma strip_trailing_slash_snoc (u : jsstring) :
  strip_trailing_slash (u ++ [47%N]) = u.
Proof.
  induction u as [ | c u IH]; [reflexivity | ].
  cbn [app strip_trailing_slash]. rewrite IH.
  destruct u; reflexivity.
Qed.

Lemma strip_trailing_slash_other (u : jsstring) :
  last u <> Some 47%N -> strip_trailing_slash u = u.
Proof.
  induction u as [ | c u IH]; [reflexivity | ].
  destruct u as [ | d u].
  - cbn. intros Hlast. destruct (N.eqb_spec c 47); [congruence | reflexivity].
  - intros Hlast. rewrite last_cons_cons in Hlast.
    cbn [strip_trailing_slash]. cbn [strip_trailing_slash] in IH.
    by rewrite IH.
Qed.

(** X15: the API address is the configured one without one trailing slash:
    an address [u] that does not end in a slash and the address [u/] give
    the same [API_URL], namely [u]. *)
Theorem trailing_slash_is_dropped (o o' : Outside) (u : jsstring) :
  u <> [] ->
  last u <> Some 47%N ->
  PUBLIC_API_URL o = Some u ->
  PUBLIC_API_URL o' = Some (u ++ [47%N]) ->
  API_URL o = u /\ API_URL o' = u.
Proof.
  intros Hne Hlast Ho Ho'. unfold API_URL. rewrite Ho, Ho'.
  destruct u as [ | c u]; [contradiction | ]. split.
  - by apply strip_trailing_slash_other.
  - apply (strip_trailing_slash_snoc (c :: u)).
Qed.

End CaptureStages.

(** The statements on the stages, run on the sample pages. *)
Lemma capture_without_picture_sends_nothing_example :
  VideoProcessing.requests
    (@VideoProcessing.captureSnapshot plain_host Sample.answering
       Scene.too_early)
  = VideoProcessing.requests Scene.too_early
  /\ Page.results
       (@VideoProcessing.captureSnapshot plain_host Sample.answering
          Scene.too_early)
     = Page.results Scene.too_early
  /\ VideoProcessing.alerts
       (@VideoProcessing.captureSnapshot plain_host Sample.answering
          Scene.too_early)
     = VideoProcessing.alerts Scene.too_early
  /\ exists message,
       VideoProcessing.console
         (@VideoProcessing.captureSnapshot plain_host Sample.answering
            Scene.too_early)
       = VideoProcessing.console Scene.too_early
         ++ [VideoProcessing.ErrorLine (js "Error during capture:") message].
Proof.
  apply (@capture_without_picture_sends_nothing plain_host Sample.answering
           Scene.too_early (js "A")); reflexivity.
Defined.

Lemma upload_returns_ok_responses_only_example :
  VideoProcessing.ok
    {| VideoProcessing.status := 200;
       VideoProcessing.body :=
         VideoProcessing.Stream (js "...") (Some Sample.right_hand_A);
       VideoProcessing.bodyUsed := false |} = true
  /\ exists b,
       Some {| VideoProcessing.png := Some 7%N |} = Some b
       /\ VideoProcessing.server Sample.answering
            (Page.request_of Sample.answering b (js "A"))
          = Return {| VideoProcessing.status := 200;
                      VideoProcessing.body :=
                        VideoProcessing.Stream (js "...")
                          (Some Sample.right_hand_A);
                      VideoProcessing.bodyUsed := false |}.
Proof.
  apply (@upload_returns_ok_responses_only plain_host Sample.answering
           (Some {| VideoProcessing.png := Some 7%N |}) (js "A")
           Sample.letter_A).
  reflexivity.
Defined.

Lemma failed_upload_leaves_results_example :
  Page.results
    (@VideoProcessing.captureSnapshot plain_host Sample.failing Sample.letter_A)
  = Page.results Sample.letter_A
  /\ forall letter,
       VideoProcessing.getSelectedLetter Sample.letter_A = Some letter ->
       VideoProcessing.alerts
         (@VideoProcessing.captureSnapshot plain_host Sample.failing
            Sample.letter_A)
       = VideoProcessing.alerts Sample.letter_A
       /\ exists message,
            VideoProcessing.console
              (@VideoProcessing.captureSnapshot plain_host Sample.failing
                 Sample.letter_A)
            = VideoProcessing.console Sample.letter_A
              ++ [VideoProcessing.ErrorLine (js "Error during capture:")
                    message].
Proof.
  apply (@failed_upload_leaves_results plain_host Sample.failing
           Sample.letter_A).
  intros request response Hanswer. injection Hanswer as <-. reflexivity.
Defined.

Lemma capture_keeps_the_frame_example :
  VideoProcessing.offscreen
    (@VideoProcessing.captureSnapshot plain_host Sample.failing Sample.letter_A)
  = Some {| VideoProcessing.width := 640; VideoProcessing.height := 480;
            VideoProcessing.picture := Some 7%N |}.
Proof.
  apply (@capture_keeps_the_frame plain_host Sample.failing Sample.letter_A
           (js "A")
           {| VideoProcessing.width := 640; VideoProcessing.height := 480;
              VideoProcessing.picture := None |} 7%N); reflexivity.
Defined.

Lemma successful_capture_shows_derived_record_example :
  VideoProcessing.MSL_STATE
    (@VideoProcessing.captureSnapshot plain_host Scene.answering_left
       Scene.no_hand_element)
  = Some (Page.snapshot_of (@Wire.derived plain_host Sample.left_hand_C))
  /\ VideoProcessing.resultLetter
       (@VideoProcessing.captureSnapshot plain_host Scene.answering_left
          Scene.no_hand_element)
     = match VideoProcessing.resultLetter Scene.no_hand_element with
       | Some _ =>
           Some (js "Letter detected: " ++ Page.letter_text Sample.left_hand_C)
       | None => None
       end
  /\ VideoProcessing.resultConfidence
       (@VideoProcessing.captureSnapshot plain_host Scene.answering_left
          Scene.no_hand_element)
     = match VideoProcessing.resultConfidence Scene.no_hand_element with
       | Some _ =>
           Some (js "Confidence: "
                 ++ VideoProcessing.confidencePct
                      (@Wire.derived plain_host Sample.left_hand_C))
       | None => None
       end
  /\ VideoProcessing.resultHand
       (@VideoProcessing.captureSnapshot plain_host Scene.answering_left
          Scene.no_hand_element)
     = match VideoProcessing.resultHand Scene.no_hand_element with
       | Some _ =>
           Some (js "Hand detected: "
                 ++ VideoProcessing.handDetected
                      (@Wire.derived plain_host Sample.left_hand_C))
       | None => None
       end
  /\ VideoProcessing.console
       (@VideoProcessing.captureSnapshot plain_host Scene.answering_left
          Scene.no_hand_element)
     = VideoProcessing.console Scene.no_hand_element
       ++ [VideoProcessing.Log (js "✅ Detected hands—metadata:")
             (Wire.parse Sample.left_hand_C)]
  /\ VideoProcessing.alerts
       (@VideoProcessing.captureSnapshot plain_host Scene.answering_left
          Scene.no_hand_element)
     = VideoProcessing.alerts Scene.no_hand_element.
Proof.
  apply (@successful_capture_shows_derived_record plain_host
           Scene.answering_left Scene.no_hand_element (js "A")
           Sample.left_hand_C 200 (js "..."));
    reflexivity.
Defined.

Lemma capture_with_empty_value_only_alerts_example :
  @VideoProcessing.captureSnapshot plain_host Sample.answering
    Scene.empty_value
  = VideoProcessing.with_alerts
      (VideoProcessing.alerts Scene.empty_value
       ++ [js "Please select a letter before capturing."])
      Scene.empty_value.
Proof.
  apply (@capture_with_empty_value_only_alerts plain_host Sample.answering
           Scene.empty_value).
  reflexivity.
Defined.

Lemma trailing_slash_is_dropped_example :
  VideoProcessing.API_URL Scene.answering_left = js "https://msl.example"
  /\ VideoProcessing.API_URL Sample.answering = js "https://msl.example".
Proof.
  apply (trailing_slash_is_dropped Scene.answering_left Sample.answering
           (js "https://msl.example")).
  - discriminate.
  - vm_compute. discriminate.
  - reflexivity.
  - reflexivity.
Defined.

(** * Properties of the overlay *)

Section OverlayFacts.

Import Overlay.

Lemma segment_path (w h : N) (a b a' b' : Num.number) (c : Context2D) :
  path (lineTo a b (moveTo a' b' (beginPath c)))
  = path (lineTo a b (moveTo a' b'
            {| width := w; height := h; lineWidth := Num.zero;
               strokeStyle := []; fillStyle := []; path := [];
               painted := [] |})).
Proof.
  unfold lineTo, moveTo, beginPath, with_path.
  destruct (finite a' && finite b'), (finite a && finite b); reflexivity.
Qed.

Lemma drawConnection_joins (hand : Hand) (connection : nat * nat) (c : Context2D) :
  joins hand connection = true ->
  exists c',
    drawConnection hand connection c = (Return tt, c')
    /\ width c' = width c /\ height c' = height c
    /\ lineWidth c' = lineWidth c /\ strokeStyle c' = strokeStyle c
    /\ fillStyle c' = fillStyle c
    /\ painted c'
       = painted c
         ++ [Stroked (strokeStyle c) (lineWidth c)
               (segment (width c) (height c) hand connection)].
Proof.
  unfold joins. intros [Ha Hb]%andb_true_iff.
  apply Nat.ltb_lt in Ha, Hb.
  unfold drawConnection, segment. cbv zeta.
  destruct (lookup (fst connection) hand) as [p1 | ] eqn:Hp1.
  2:{ apply lookup_ge_None in Hp1. lia. }
  destruct (lookup (snd connection) hand) as [p2 | ] eqn:Hp2.
  2:{ apply lookup_ge_None in Hp2. lia. }
  eexists. split; [reflexivity | ].
  set (a' := Num.mul (x p1) _). set (b' := Num.mul (y p1) _).
  set (a := Num.mul (x p2) _). set (b := Num.mul (y p2) _).
  rewrite <- (segment_path (width c) (height c) a b a' b' c).
  unfold stroke, lineTo, moveTo, beginPath, with_path.
  destruct (finite a' && finite b'), (finite a && finite b);
    cbn [width height lineWidth strokeStyle fillStyle painted path];
    repeat split.
Qed.

Lemma drawConnection_missing (hand : Hand) (connection : nat * nat) (c : Context2D) :
  joins hand connection = false ->
  exists c', drawConnection hand connection c = (Throw (TypeError NullishAccess), c').
Proof.
  unfold joins, drawConnection. intros Hmiss. cbv zeta.
  destruct (lookup (fst connection) hand) as [p1 | ] eqn:Hp1; [ | by eexists].
  destruct (lookup (snd connection) hand) as [p2 | ] eqn:Hp2; [ | by eexists].
  apply lookup_lt_Some, Nat.ltb_lt in Hp1. apply lookup_lt_Some, Nat.ltb_lt in Hp2.
  rewrite Hp1, Hp2 in Hmiss. discriminate.
Qed.

Lemma drawConnections_all (hand : Hand) (connections : list (nat * nat))
    (c : Context2D) :
  forallb (joins hand) connections = true ->
  exists c',
    forEach (drawConnection hand) connections c = (Return tt, c')
    /\ width c' = width c /\ height c' = height c
    /\ lineWidth c' = lineWidth c /\ strokeStyle c' = strokeStyle c
    /\ fillStyle c' = fillStyle c
    /\ painted c'
       = painted c
         ++ map (fun connection =>
                   Stroked (strokeStyle c) (lineWidth c)
                     (segment (width c) (height c) hand connection))
              connections.
Proof.
  revert c. induction connections as [ | k ks IH]; intros c Hall.
  - exists c. cbn. rewrite app_nil_r. repeat split.
  - cbn [forallb] in Hall. apply andb_true_iff in Hall as [Hk Hks].
    destruct (drawConnection_joins hand k c Hk)
      as (c1 & Hrun & Hw & Hh & Hlw & Hss & Hfs & Hp).
    destruct (IH c1 Hks) as (c2 & Hrun2 & Hw2 & Hh2 & Hlw2 & Hss2 & Hfs2 & Hp2).
    exists c2. cbn [forEach]. rewrite Hrun, Hrun2.
    rewrite Hw2, Hh2, Hlw2, Hss2, Hfs2, Hp2, Hp, Hw, Hh, Hlw, Hss, Hfs.
    cbn [map]. rewrite <- app_assoc. repeat split.
Qed.

Lemma drawConnections_missing (hand : Hand) (connections : list (nat * nat))
    (c : Context2D) :
  forallb (joins hand) connections = false ->
  exists c',
    forEach (drawConnection hand) connections c
    = (Throw (TypeError NullishAccess), c').
Proof.
  revert c. induction connections as [ | k ks IH]; intros c Hsome.
  - discriminate.
  - cbn [forallb] in Hsome. cbn [forEach].
    destruct (joins hand k) eqn:Hk.
    + destruct (drawConnection_joins hand k c Hk) as (c1 & -> & _).
      apply IH. exact Hsome.
    + destruct (drawConnection_missing hand k c Hk) as (c1 & ->).
      by eexists.
Qed.

Lemma eachFinger_all (hand : Hand) (fs : list Finger) (c : Context2D) :
  forallb (within hand) fs = true ->
  exists c',
    forEach (eachFinger hand) fs c = (Return tt, c')
    /\ width c' = width c /\ height c' = height c
    /\ lineWidth c' = lineWidth c /\ fillStyle c' = fillStyle c
    /\ painted c'
       = painted c
         ++ flat_map
              (fun finger =>
                 map (fun connection =>
                        Stroked (rgb finger) (lineWidth c)
                          (segment (width c) (height c) hand connection))
                   (FINGER_CONNECTIONS finger))
              fs.
Proof.
  revert c. induction fs as [ | f fs IH]; intros c Hall.
  - exists c. cbn. rewrite app_nil_r. repeat split.
  - cbn [forallb] in Hall. apply andb_true_iff in Hall as [Hf Hfs].
    destruct (drawConnections_all hand (FINGER_CONNECTIONS f)
                (set_strokeStyle (rgb f) c) Hf)
      as (c1 & Hrun & Hw & Hh & Hlw & _ & Hfill & Hp).
    destruct (IH c1 Hfs) as (c2 & Hrun2 & Hw2 & Hh2 & Hlw2 & Hfill2 & Hp2).
    exists c2. cbn [forEach]. unfold eachFinger at 1. rewrite Hrun, Hrun2.
    rewrite Hw2, Hh2, Hlw2, Hfill2, Hp2, Hp, Hw, Hh, Hlw, Hfill.
    cbn [flat_map width height lineWidth strokeStyle fillStyle painted
         set_strokeStyle].
    rewrite <- app_assoc. repeat split.
Qed.

Lemma eachFinger_missing (hand : Hand) (fs : list Finger) (c : Context2D) :
  forallb (within hand) fs = false ->
  exists c',
    forEach (eachFinger hand) fs c = (Throw (TypeError NullishAccess), c').
Proof.
  revert c. induction fs as [ | f fs IH]; intros c Hsome.
  - discriminate.
  - cbn [forallb] in Hsome. cbn [forEach]. unfold eachFinger at 1.
    destruct (within hand f) eqn:Hf.
    + destruct (drawConnections_all hand (FINGER_CONNECTIONS f)
                  (set_strokeStyle (rgb f) c) Hf) as (c1 & -> & _).
      apply IH. exact Hsome.
    + destruct (drawConnections_missing hand (FINGER_CONNECTIONS f)
                  (set_strokeStyle (rgb f) c) Hf) as (c1 & ->).
      by eexists.
Qed.

(** The table names the landmarks 0 to 20 and no other. *)
Lemma table_within (hand : Hand) :
  forallb (within hand) fingers = (21 <=? length hand).
Proof.
  unfold within, joins.
  cbn [fingers forallb FINGER_CONNECTIONS fst snd].
  destruct (Nat.leb_spec 21 (length hand)) as [Hlong | Hshort].
  - repeat match goal with
           | |- context [?k <? length hand] =>
               replace (k <? length hand) with true
                 by (symmetry; apply Nat.ltb_lt; lia)
           end.
    reflexivity.
  - apply not_true_iff_false. intros Hall.
    repeat rewrite andb_true_iff in Hall.
    assert (H20 : (20 <? length hand) = true) by tauto.
    apply Nat.ltb_lt in H20. lia.
Qed.

Lemma drawFingerConnections_loop (hand : Hand) (c : Context2D) :
  drawFingerConnections hand c
  = forEach (eachFinger hand) fingers (set_lineWidth DRAWING_lineWidth c).
Proof. reflexivity. Qed.

(** X16: [drawFingerConnections] completes exactly for a hand of at least
    21 landmarks: the table of connections names the landmarks 0 to 20, and
    with any of them missing the function throws a [TypeError]. *)
Theorem drawFingerConnections_needs_21_landmarks (hand : Hand) (c : Context2D) :
  fst (drawFingerConnections hand c) = Return tt <-> 21 <= length hand.
Proof.
  rewrite drawFingerConnections_loop.
  pose proof (table_within hand) as Htable.
  destruct (Nat.leb_spec 21 (length hand)) as [Hlong | Hshort].
  - destruct (eachFinger_all hand fingers (set_lineWidth DRAWING_lineWidth c)
                Htable) as (c' & -> & _).
    split; [intros _; exact Hlong | reflexivity].
  - destruct (eachFinger_missing hand fingers
                (set_lineWidth DRAWING_lineWidth c) Htable) as (c' & ->).
    split; [discriminate | lia].
Qed.

Lemma dot_path (w h : N) (a b : Num.number) (c : Context2D) :
  path (arc a b (beginPath c))
  = path (arc a b
            {| width := w; height := h; lineWidth := Num.zero;
               strokeStyle := []; fillStyle := []; path := [];
               painted := [] |}).
Proof.
  unfold arc, beginPath, with_path. destruct (finite a && finite b); reflexivity.
Qed.

Lemma drawLandmarkPoint_dot (p : Landmark) (c : Context2D) :
  exists c',
    drawLandmarkPoint p c = (Return tt, c')
    /\ width c' = width c /\ height c' = height c
    /\ fillStyle c' = fillStyle c
    /\ painted c'
       = painted c
         ++ [Filled (fillStyle c)
               (path (arc (Num.mul (x p) (Num.of_N (width c)))
                        (Num.mul (y p) (Num.of_N (height c)))
                        {| width := width c; height := height c;
                           lineWidth := Num.zero; strokeStyle := [];
                           fillStyle := []; path := []; painted := [] |}))].
Proof.
  unfold drawLandmarkPoint. eexists. split; [reflexivity | ].
  set (a := Num.mul (x p) _). set (b := Num.mul (y p) _).
  rewrite <- (dot_path (width c) (height c) a b c).
  unfold fill, arc, beginPath, with_path.
  destruct (finite a && finite b);
    cbn [width height fillStyle painted path]; repeat split.
Qed.

Lemma drawLandmarkPoints_dots (hand : Hand) (c : Context2D) :
  exists c',
    drawLandmarkPoints hand c = (Return tt, c')
    /\ width c' = width c /\ height c' = height c
    /\ painted c' = painted c ++ map (dot (width c) (height c)) hand.
Proof.
  unfold drawLandmarkPoints.
  assert (Hloop : forall ps c0,
    fillStyle c0 = DRAWING_landmarkColor ->
    exists c',
      forEach drawLandmarkPoint ps c0 = (Return tt, c')
      /\ width c' = width c0 /\ height c' = height c0
      /\ painted c' = painted c0 ++ map (dot (width c0) (height c0)) ps).
  { induction ps as [ | p ps IH]; intros c0 Hstyle.
    - exists c0. cbn. rewrite app_nil_r. repeat split.
    - destruct (drawLandmarkPoint_dot p c0) as (c1 & Hrun & Hw & Hh & Hfs & Hp).
      destruct (IH c1) as (c2 & Hrun2 & Hw2 & Hh2 & Hp2); [congruence | ].
      exists c2. cbn [forEach]. rewrite Hrun, Hrun2, Hw2, Hh2, Hp2, Hp, Hw, Hh.
      cbn [map]. unfold dot at 2. rewrite Hstyle, <- app_assoc.
      repeat split. }
  destruct (Hloop hand (set_fillStyle DRAWING_landmarkColor c) eq_refl)
    as (c' & Hrun & Hw & Hh & Hp).
  exists c'. split; [exact Hrun | ]. rewrite Hw, Hh, Hp. repeat split.
Qed.

Lemma drawHand_picture (hand : Hand) (c : Context2D) :
  21 <= length hand ->
  exists c',
    drawHand hand c = (Return tt, c')
    /\ width c' = width c /\ height c' = height c
    /\ painted c' = painted c ++ picture (width c) (height c) hand.
Proof.
  intros Hlong. unfold drawHand. rewrite drawFingerConnections_loop.
  assert (Htable : forallb (within hand) fingers = true).
  { rewrite table_within. by apply Nat.leb_le. }
  destruct (eachFinger_all hand fingers (set_lineWidth DRAWING_lineWidth c)
              Htable) as (c1 & -> & Hw & Hh & _ & _ & Hp).
  destruct (drawLandmarkPoints_dots hand c1) as (c2 & -> & Hw2 & Hh2 & Hp2).
  exists c2. split; [reflexivity | ].
  rewrite Hw2, Hh2, Hp2, Hp, Hw, Hh. unfold picture, skeleton.
  cbn [width height lineWidth painted set_lineWidth].
  rewrite <- app_assoc. repeat split.
Qed.

Lemma drawHandLandmarks_pictures (hands : list Hand) (c : Context2D) :
  Forall (fun hand => 21 <= length hand) hands ->
  exists c',
    drawHandLandmarks hands c = (Return tt, c')
    /\ width c' = width c /\ height c' = height c
    /\ painted c'
       = painted c ++ flat_map (picture (width c) (height c)) hands.
Proof.
  unfold drawHandLandmarks. revert c.
  induction hands as [ | hand hands IH]; intros c Hall.
  - exists c. cbn. rewrite app_nil_r. repeat split.
  - apply Forall_cons in Hall as [Hhand Hrest].
    destruct (drawHand_picture hand c Hhand) as (c1 & Hrun & Hw & Hh & Hp).
    destruct (IH c1 Hrest) as (c2 & Hrun2 & Hw2 & Hh2 & Hp2).
    exists c2. cbn [forEach]. rewrite Hrun, Hrun2, Hw2, Hh2, Hp2, Hp, Hw, Hh.
    cbn [flat_map]. rewrite <- app_assoc. repeat split.
Qed.

(** X17: no stale frames.  A frame processed while the landmarks are shown
    leaves on the overlay exactly the picture of the hands detected in that
    frame (per hand the 21 coloured segments of the table, then one white
    dot per landmark, in the order the hands were returned), whatever was
    painted before, and requests the next frame. *)
Theorem frame_shows_the_current_hands (s : Stage) (c : Context2D)
    (hands : list Hand) :
  showLandmarks s = true ->
  ctx s = Some c ->
  Forall (fun hand => 21 <= length hand) hands ->
  exists c',
    processFrame (Return (Some hands)) s
    = (Return tt,
       with_frameRequested true
         (with_ctx (Some c') (with_latestLandmarks hands s)))
    /\ painted c' = flat_map (picture (width c) (height c)) hands
    /\ width c' = width c /\ height c' = height c.
Proof.
  intros Hshow Hctx Hall. unfold processFrame.
  cbn [default from_option id ctx showLandmarks latestLandmarks
       with_latestLandmarks].
  rewrite Hctx, Hshow.
  destruct (drawHandLandmarks_pictures hands (clearRect c) Hall)
    as (c' & -> & Hw & Hh & Hp).
  exists c'. split; [reflexivity | ]. rewrite Hp, Hw, Hh. repeat split.
Qed.

Lemma processFrame_untouched (d : completion (option (list Hand))) (s : Stage) :
  showLandmarks (snd (processFrame d s)) = showLandmarks s
  /\ button (snd (processFrame d s)) = button s
  /\ clickListeners (snd (processFrame d s)) = clickListeners s.
Proof.
  unfold processFrame. destruct d as [landmarks | e]; [ | repeat split].
  cbn [ctx showLandmarks latestLandmarks with_latestLandmarks].
  destruct (ctx s) as [c | ]; [ | repeat split].
  destruct (if showLandmarks s then _ else _) as [r s'] eqn:Hrun.
  assert (Hs' : exists c2 b,
            s' = with_frameRequested b
                   (with_ctx (Some c2)
                      (with_latestLandmarks (default [] landmarks) s))).
  { destruct (showLandmarks s).
    - destruct (drawHandLandmarks _ _) as [[u | e] c2];
        injection Hrun as _ <-.
      + by eexists _, _.
      + exists c2, (frameRequested s). reflexivity.
    - injection Hrun as _ <-. by eexists _, _. }
  destruct Hs' as (c2 & b & ->). repeat split.
Qed.

Lemma animationFrame_untouched (d : completion (option (list Hand))) (s : Stage) :
  showLandmarks (animationFrame d s) = showLandmarks s
  /\ button (animationFrame d s) = button s
  /\ clickListeners (animationFrame d s) = clickListeners s.
Proof.
  unfold animationFrame. destruct (frameRequested s); [ | (repeat (split; [reflexivity | ]); reflexivity)].
  apply (processFrame_untouched d (with_frameRequested false s)).
Qed.

Lemma processFrame_blank (d : completion (option (list Hand))) (s : Stage) :
  blank_when_hidden s -> blank_when_hidden (snd (processFrame d s)).
Proof.
  unfold blank_when_hidden, processFrame. intros Hs.
  destruct d as [landmarks | e]; [ | exact Hs].
  cbn [ctx showLandmarks latestLandmarks with_latestLandmarks].
  destruct (ctx s) as [c | ] eqn:Hctx.
  2:{ cbn. intros _ c. by rewrite Hctx. }
  destruct (showLandmarks s) eqn:Hshow.
  - destruct (drawHandLandmarks _ _) as [[u | e] c2]; cbn; congruence.
  - cbn. intros _ c0 [= <-]. reflexivity.
Qed.

Lemma toggleClicked_blank (s : Stage) :
  blank_when_hidden (snd (toggleClicked s)).
Proof.
  unfold blank_when_hidden, toggleClicked.
  cbn [showLandmarks ctx with_label with_showLandmarks].
  destruct (negb (showLandmarks s)) eqn:Hnew.
  - cbn. congruence.
  - destruct (ctx s) as [c | ] eqn:Hctx; cbn.
    + intros _ c0 [= <-]. reflexivity.
    + intros _ c0. by rewrite Hctx.
Qed.

Lemma click_blank (s : Stage) :
  blank_when_hidden s -> blank_when_hidden (click s).
Proof.
  unfold click. generalize (clickListeners s) as n.
  induction n as [ | n IH]; intros Hs; [exact Hs | ].
  rewrite Nat.iter_succ. apply toggleClicked_blank.
Qed.

(** X18: while the landmarks are hidden the overlay is blank.  The property
    holds after every sequence of frames and clicks on the toggle button:
    switching off clears the overlay at once, and a frame processed while
    hidden only clears. *)
Theorem hidden_overlay_stays_blank (events : list Event) (s : Stage) :
  blank_when_hidden s -> blank_when_hidden (play events s).
Proof.
  unfold play. revert s. induction events as [ | e events IH]; intros s Hs.
  - exact Hs.
  - cbn [fold_left]. apply IH. destruct e as [d | ]; cbn [react].
    + unfold animationFrame. destruct (frameRequested s); [ | exact Hs].
      apply processFrame_blank. exact Hs.
    + by apply click_blank.
Qed.

Lemma toggleClicked_sync (s : Stage) : label_in_sync (snd (toggleClicked s)).
Proof.
  unfold label_in_sync, toggleClicked.
  cbn [showLandmarks ctx with_label with_showLandmarks].
  destruct (negb (showLandmarks s)); [reflexivity | ].
  destruct (ctx s); reflexivity.
Qed.

Lemma click_sync (s : Stage) : label_in_sync s -> label_in_sync (click s).
Proof.
  unfold click. generalize (clickListeners s) as n.
  induction n as [ | n IH]; intros Hs; [exact Hs | ].
  rewrite Nat.iter_succ. apply toggleClicked_sync.
Qed.

Lemma play_sync (events : list Event) (s : Stage) :
  label_in_sync s -> label_in_sync (play events s).
Proof.
  unfold play. revert s. induction events as [ | e events IH]; intros s Hs.
  - exact Hs.
  - cbn [fold_left]. apply IH. destruct e as [d | ]; cbn [react].
    + unfold label_in_sync in *.
      destruct (animationFrame_untouched d s) as (-> & -> & _). exact Hs.
    + by apply click_sync.
Qed.

(** X19: once [enablePreviewToggle] has run on a page whose button has its
    label element, the label reads "Hide Landmarks" while the landmarks are
    shown and "Show Landmarks" while they are hidden, after every sequence
    of frames and clicks. *)
Theorem toggle_label_tells_the_flag (events : list Event) (s : Stage)
    (t : jsstring) :
  button s = Some (Some t) ->
  label_in_sync (play events (enablePreviewToggle s)).
Proof.
  intros Hlabel. apply play_sync.
  unfold label_in_sync, enablePreviewToggle. rewrite Hlabel. reflexivity.
Qed.






End OverlayFacts.

Lemma frame_shows_the_current_hands_example :
  exists c',
    Overlay.processFrame (Return (Some [Studio.centred_hand])) Studio.running
    = (Return tt,
       Overlay.with_frameRequested true
         (Overlay.with_ctx (Some c')
            (Overlay.with_latestLandmarks [Studio.centred_hand]
               Studio.running)))
    /\ Overlay.painted c'
       = flat_map
           (Overlay.picture (Overlay.width Studio.blank_overlay)
              (Overlay.height Studio.blank_overlay))
           [Studio.centred_hand]
    /\ Overlay.width c' = Overlay.width Studio.blank_overlay
    /\ Overlay.height c' = Overlay.height Studio.blank_overlay.
Proof.
  apply (frame_shows_the_current_hands Studio.running Studio.blank_overlay
           [Studio.centred_hand]).
  - reflexivity.
  - reflexivity.
  - repeat constructor.
Defined.

Lemma hidden_overlay_stays_blank_example :
  Overlay.blank_when_hidden
    (Overlay.play
       [Overlay.Frame (Return (Some [Studio.centred_hand])); Overlay.Click;
        Overlay.Frame (Return (Some [Studio.centred_hand]))]
       (Overlay.enablePreviewToggle Studio.running)).
Proof.
  apply (hidden_overlay_stays_blank
           [Overlay.Frame (Return (Some [Studio.centred_hand])); Overlay.Click;
            Overlay.Frame (Return (Some [Studio.centred_hand]))]
           (Overlay.enablePreviewToggle Studio.running)).
  intros Hhidden. discriminate Hhidden.
Defined.

Lemma toggle_label_tells_the_flag_example :
  Overlay.label_in_sync
    (Overlay.play [Overlay.Click; Overlay.Frame (Return None); Overlay.Click;
                   Overlay.Click]
       (Overlay.enablePreviewToggle Studio.running)).
Proof.
  apply (toggle_label_tells_the_flag
           [Overlay.Click; Overlay.Frame (Return None); Overlay.Click;
            Overlay.Click]
           Studio.running []).
  reflexivity.
Defined.

(** * Further properties of the extraction and of the error handler *)

Section Precedence.

Import Wire VideoProcessing.

Context `{Platform}.

Local Open Scope js_scope.

(** X22: the letter is [detected_as] when that field holds a string; only
    when it is missing or null is [predicted_as] used, and only when that
    is missing or null too is the letter the dash. *)
Theorem detected_as_comes_first (r : SuccessRecord) :
  exists d,
    extractDetectionData (parse r) = Return d
    /\ (forall a, detected_as r = Given a -> detectedLetter d = VStr a)
    /\ (forall p, given (detected_as r) = false -> predicted_as r = Given p ->
                  detectedLetter d = VStr p)
    /\ (given (detected_as r) = false -> given (predicted_as r) = false ->
        detectedLetter d = VStr (js "-")).
Proof.
  exists (derived r). split; [apply extract_parse | ].
  cbn [derived detectedLetter]. unfold letter.
  destruct (detected_as r) as [ | | a], (predicted_as r) as [ | | p];
    repeat split; intros; try discriminate; congruence.
Qed.

(** X23: an explicit handedness entry decides the hand, whatever the
    landmark lists hold.  When its first character is in ASCII, the hand is
    the entry with that character in upper case and the rest unchanged. *)
Theorem handedness_entry_decides (r : SuccessRecord) (c : N) (rest : jsstring) :
  head (handedness_entries r) = Some (c :: rest) ->
  is_ascii c = true ->
  exists d, extractDetectionData (parse r) = Return d
            /\ handDetected d = ascii_upper c :: rest.
Proof.
  intros Hhead Hascii. exists (derived r). split; [apply extract_parse | ].
  cbn [derived handDetected]. unfold hand, side.
  destruct (handedness_entries r) as [ | h hs]; [discriminate | ].
  injection Hhead as ->. unfold toUpperCase. cbn [forallb].
  rewrite Hascii. reflexivity.
Qed.

(** X24: an empty first handedness entry is neither a hand nor a missing
    entry: the hand is the dash, and the landmark lists are not looked at,
    since [??] falls back on null and undefined only. *)
Theorem blank_entry_blocks_landmarks (r : SuccessRecord) :
  head (handedness_entries r) = Some [] ->
  exists d, extractDetectionData (parse r) = Return d
            /\ handDetected d = js "—".
Proof.
  intros Hhead. exists (derived r). split; [apply extract_parse | ].
  cbn [derived handDetected]. unfold hand, side.
  destruct (handedness_entries r) as [ | h hs]; [discriminate | ].
  injection Hhead as ->. reflexivity.
Qed.

(** X25: without a handedness entry a non-empty [landmarks.right] list gives
    the hand ["Right"], whether or not [landmarks.left] holds landmarks. *)
Theorem right_landmarks_come_first (r : SuccessRecord) :
  handedness_entries r = [] ->
  right_landmarks r <> [] ->
  exists d, extractDetectionData (parse r) = Return d
            /\ handDetected d = js "Right".
Proof.
  intros Hnone Hright. exists (derived r). split; [apply extract_parse | ].
  cbn [derived handDetected]. unfold hand, side. rewrite Hnone.
  destruct (right_landmarks r); [contradiction | ].
  vm_compute. reflexivity.
Qed.

End Precedence.

Lemma handedness_entry_decides_example :
  exists d,
    @VideoProcessing.extractDetectionData plain_host
      (Wire.parse Sample.percent_both) = Return d
    /\ VideoProcessing.handDetected d = ascii_upper 98 :: js "oth".
Proof.
  apply (@handedness_entry_decides plain_host Sample.percent_both 98 (js "oth"));
    reflexivity.
Defined.

Lemma blank_entry_blocks_landmarks_example :
  exists d,
    @VideoProcessing.extractDetectionData plain_host
      (Wire.parse Scene.blank_handedness) = Return d
    /\ VideoProcessing.handDetected d = js "—".
Proof.
  apply (@blank_entry_blocks_landmarks plain_host Scene.blank_handedness).
  reflexivity.
Defined.

Lemma right_landmarks_come_first_example :
  exists d,
    @VideoProcessing.extractDetectionData plain_host
      (Wire.parse Sample.both_sides) = Return d
    /\ VideoProcessing.handDetected d = js "Right".
Proof.
  apply (@right_landmarks_come_first plain_host Sample.both_sides).
  - reflexivity.
  - discriminate.
Defined.

Section ErrorDetail.

Import VideoProcessing.

Context `{Platform}.

Local Open Scope js_scope.

Lemma plain_objects_print_alike (ps : list (gmap jsstring value)) :
  Forall (fun p => p !! js "toString" = None) ps ->
  ToString (VArr (map VObj ps))
  = Return (join_comma (map (fun _ => js "[object Object]") ps)).
Proof.
  intros Hplain. cbn [ToString].
  assert (Heach :
    (fix each (vs : list value) : completion (list jsstring) :=
       match vs with
       | [] => Return []
       | x :: rest =>
           p <- (if nullish x then Return [] else ToString x) ;;
           ps <- each rest ;;
           Return (p :: ps)
       end) (map VObj ps)
    = Return (map (fun _ => js "[object Object]") ps)).
  { induction Hplain as [ | p ps Hp _ IH]; [reflexivity | ].
    cbn [map nullish ToString bind]. rewrite Hp. cbn [bind].
    rewrite IH. reflexivity. }
  rewrite Heach. reflexivity.
Qed.

(** X26: a [detail] that is a list of objects, as a schema validation error
    sends it, does not reach the message: the error reads the status line
    followed by one [[object Object]] per entry, separated by commas. *)
Theorem detail_objects_are_not_shown (s : N) (t : jsstring)
    (props : gmap jsstring value) (entries : list (gmap jsstring value)) :
  props !! js "detail" = Some (VArr (map VObj entries)) ->
  Forall (fun p => p !! js "toString" = None) entries ->
  fst (handleServerError
         {| status := s; body := Stream t (Some (VObj props));
            bodyUsed := false |})
  = Throw (Error (statusLine {| status := s;
                                body := Stream t (Some (VObj props));
                                bodyUsed := false |}
                  ++ js ": "
                  ++ join_comma (map (fun _ => js "[object Object]") entries))).
Proof.
  intros Hdetail Hplain. unfold handleServerError, json, describe.
  cbn [body bodyUsed bind get]. rewrite Hdetail.
  cbn [default from_option id coalesce nullish bind].
  rewrite (plain_objects_print_alike entries Hplain). reflexivity.
Qed.

End ErrorDetail.


Lemma handleServerError_payload_example :
  fst (@VideoProcessing.handleServerError plain_host
         {| VideoProcessing.status := 503;
            VideoProcessing.body :=
              VideoProcessing.Stream (js "...")
                (Some (VObj (<[js "error" := VStr (js "busy")]> ∅)));
            VideoProcessing.bodyUsed := false |})
  = Throw (Error
             (@VideoProcessing.statusLine
                {| VideoProcessing.status := 503;
                   VideoProcessing.body :=
                     VideoProcessing.Stream (js "...")
                       (Some (VObj (<[js "error" := VStr (js "busy")]> ∅)));
                   VideoProcessing.bodyUsed := false |}
              ++ js ": "
              ++ @JSON_stringify plain_host
                   (VObj (<[js "error" := VStr (js "busy")]> ∅)))).
Proof.
  apply (@handleServerError_payload plain_host 503 (js "...")
           (<[js "error" := VStr (js "busy")]> ∅)).
  vm_compute. reflexivity.
Defined.

Lemma detail_objects_are_not_shown_example :
  fst (@VideoProcessing.handleServerError plain_host Scene.validation_422)
  = Throw (Error (@VideoProcessing.statusLine Scene.validation_422
                  ++ js ": "
                  ++ join_comma
                       (map (fun _ => js "[object Object]")
                          [Scene.field_required]))).
Proof.
  apply (@detail_objects_are_not_shown plain_host 422 (js "...")
           (<[js "detail" := VArr (map VObj [Scene.field_required])]> ∅)
           [Scene.field_required]).
  - vm_compute. reflexivity.
  - repeat constructor.
Defined.

(** * Properties of the start of the camera *)

Section CameraFacts.

Import Camera.

Lemma openCamera_asked env c r :
  asked (snd (openCamera env c r)) = asked r ++ [c].
Proof.
  unfold openCamera.
  destruct (getUserMedia env c); [destruct (webcam env)|]; reflexivity.
Qed.

Lemma openCamera_returns env c r :
  settles (fst (openCamera env c r)) = webcam env && settles (getUserMedia env c).
Proof.
  unfold openCamera.
  destruct (getUserMedia env c); destruct (webcam env); reflexivity.
Qed.

Lemma setupWebcam_asked env r :
  asked (snd (setupWebcam env r))
  = asked r ++ (if webcam env && settles (getUserMedia env high)
                then [high] else [high; fallback]).
Proof.
  unfold setupWebcam.
  pose proof (openCamera_asked env high r) as Hfirst.
  pose proof (openCamera_returns env high r) as Hret.
  destruct (openCamera env high r) as [[[]|e] r1]; cbn [fst snd settles] in *.
  - rewrite <- Hret. exact Hfirst.
  - rewrite <- Hret. rewrite openCamera_asked, Hfirst, <- app_assoc. reflexivity.
Qed.

(** The steps after [setupWebcam] ask the camera for nothing. *)
Lemma later_steps_do_not_ask env r :
  asked (snd (andThen (setupCanvases env)
                (andThen (initializeHandLandmarker env) requestAnimationFrame) r))
  = asked r.
Proof.
  unfold andThen, setupCanvases, initializeHandLandmarker, requestAnimationFrame.
  destruct (webcam env); [|reflexivity].
  destruct (Overlay.ctx (stage r)); [|reflexivity].
  destruct (offscreen r); [|reflexivity].
  destruct (videoSize r) as [w h].
  destruct (createHandLandmarker env); reflexivity.
Qed.

(** X28: one start asks the camera at most twice: not at all when the page
    has no overlay canvas; otherwise for the high resolution first, and for
    any video after that exactly when the first attempt did not end with a
    stream attached to the video element. *)
Theorem camera_is_asked_high_then_fallback env r :
  asked (snd (enableVideoProcessing env r))
  = asked r
    ++ match overlayElement env with
       | None => []
       | Some _ =>
           if webcam env && settles (getUserMedia env high)
           then [high] else [high; fallback]
       end.
Proof.
  unfold enableVideoProcessing.
  destruct (overlayElement env) as [c|].
  - unfold andThen at 1.
    set (r0 := with_offscreen _ _).
    pose proof (setupWebcam_asked env r0) as Hasked.
    destruct (setupWebcam env r0) as [[[]|e] r1]; cbn [snd] in Hasked.
    + rewrite later_steps_do_not_ask. exact Hasked.
    + exact Hasked.
  - cbn [snd with_stage asked]. symmetry. apply app_nil_r.
Qed.

Lemma openCamera_inv env c r r1 :
  openCamera env c r = (Return tt, r1) ->
  webcam env = true
  /\ exists stream, getUserMedia env c = Return stream
     /\ r1 = with_srcObject (Some stream) (with_asked (asked r ++ [c]) r).
Proof.
  unfold openCamera.
  destruct (getUserMedia env c) as [stream|e]; [|discriminate].
  destruct (webcam env); [|discriminate].
  intros [= <-]. split; [reflexivity|]. exists stream. split; reflexivity.
Qed.

Lemma setupWebcam_inv env r r1 :
  setupWebcam env r = (Return tt, r1) ->
  webcam env = true
  /\ exists stream,
       (getUserMedia env high = Return stream
        \/ getUserMedia env fallback = Return stream)
       /\ srcObject r1 = Some stream
       /\ offscreen r1 = offscreen r
       /\ landmarker r1 = landmarker r
       /\ stage r1 = stage r.
Proof.
  unfold setupWebcam.
  destruct (openCamera env high r) as [[[]|e] r2] eqn:Hfirst.
  - intros [= <-]. apply openCamera_inv in Hfirst as (Hcam & stream & Hget & ->).
    split; [exact Hcam|]. exists stream. repeat split. left. exact Hget.
  - assert (Hr2 : offscreen r2 = offscreen r /\ landmarker r2 = landmarker r
                  /\ stage r2 = stage r).
    { revert Hfirst. unfold openCamera.
      destruct (getUserMedia env high); [destruct (webcam env)|];
        intros [= _ <-]; repeat split. }
    destruct Hr2 as (Hoff & Hland & Hstage).
    intros Hsecond. apply openCamera_inv in Hsecond as (Hcam & stream & Hget & ->).
    split; [exact Hcam|]. exists stream. repeat split; try assumption.
    right. exact Hget.
Qed.

(** A start that returns has done all of it. *)
Lemma enableVideoProcessing_inv env r r' :
  enableVideoProcessing env r = (Return tt, r') ->
  exists stream,
    (getUserMedia env high = Return stream
     \/ getUserMedia env fallback = Return stream)
    /\ r' = {| srcObject := Some stream;
               asked := asked r';
               offscreen :=
                 Some {| VideoProcessing.width := videoWidth stream;
                         VideoProcessing.height := videoHeight stream;
                         VideoProcessing.picture := None |};
               landmarker := true;
               stage :=
                 Overlay.with_frameRequested true
                   (Overlay.with_ctx
                      (Some (blank (videoWidth stream) (videoHeight stream)))
                      (stage r)) |}.
Proof.
  unfold enableVideoProcessing.
  destruct (overlayElement env) as [c|]; [|discriminate].
  unfold andThen at 1.
  destruct (setupWebcam env _) as [[[]|e] r1] eqn:Hcam; [|discriminate].
  apply setupWebcam_inv in Hcam as (Hweb & stream & Hget & Hsrc & Hoff & Hland & Hstage).
  cbn [with_offscreen with_stage stage offscreen landmarker] in Hoff, Hland, Hstage.
  unfold andThen at 1. unfold setupCanvases.
  rewrite Hweb, Hstage, Hoff.
  cbn [Overlay.with_ctx Overlay.ctx].
  unfold videoSize. rewrite Hsrc. cbv beta iota.
  unfold andThen, initializeHandLandmarker, requestAnimationFrame.
  destruct (createHandLandmarker env) as [[]|e]; [|discriminate].
  intros [= <-]. exists stream. split; [exact Hget|].
  unfold with_stage, with_landmarker, with_offscreen.
  cbn [srcObject asked offscreen landmarker stage].
  rewrite Hsrc. reflexivity.
Qed.

(** X29: when the start returns, the video element plays a stream the
    camera granted, the overlay and the offscreen canvas both have the size
    of that video and are blank, the landmarker is set, and the first frame
    is requested; the toggle and the landmark flag are as they were. *)
Theorem start_sizes_the_canvases_to_the_video env r :
  fst (enableVideoProcessing env r) = Return tt ->
  exists stream,
    (getUserMedia env high = Return stream
     \/ getUserMedia env fallback = Return stream)
    /\ srcObject (snd (enableVideoProcessing env r)) = Some stream
    /\ offscreen (snd (enableVideoProcessing env r))
       = Some {| VideoProcessing.width := videoWidth stream;
                 VideoProcessing.height := videoHeight stream;
                 VideoProcessing.picture := None |}
    /\ landmarker (snd (enableVideoProcessing env r)) = true
    /\ stage (snd (enableVideoProcessing env r))
       = Overlay.with_frameRequested true
           (Overlay.with_ctx
              (Some (blank (videoWidth stream) (videoHeight stream)))
              (stage r)).
Proof.
  destruct (enableVideoProcessing env r) as [res r'] eqn:Hrun.
  cbn [fst snd]. intros ->.
  destruct (enableVideoProcessing_inv env r r' Hrun) as (stream & Hget & Hrig).
  exists stream. split; [exact Hget|].
  rewrite Hrig. repeat split.
Qed.

(** A start that throws leaves the render loop and the landmarker alone. *)
Lemma failed_start_requests_nothing env r e r' :
  enableVideoProcessing env r = (Throw e, r') ->
  Overlay.frameRequested (stage r') = Overlay.frameRequested (stage r)
  /\ landmarker r' = landmarker r.
Proof.
  unfold enableVideoProcessing.
  destruct (overlayElement env) as [c|];
    [|intros [= _ <-]; split; reflexivity].
  unfold andThen at 1.
  destruct (setupWebcam env _) as [[[]|e1] r1] eqn:Hcam.
  - apply setupWebcam_inv in Hcam as (Hweb & stream & _ & _ & Hoff & Hland & Hstage).
    cbn [with_offscreen with_stage stage offscreen landmarker] in Hoff, Hland, Hstage.
    unfold andThen, setupCanvases, initializeHandLandmarker, requestAnimationFrame.
    rewrite Hweb, Hstage, Hoff. cbn [Overlay.with_ctx Overlay.ctx].
    destruct (videoSize r1) as [w h].
    destruct (createHandLandmarker env) as [[]|e2]; [discriminate|].
    intros [= _ <-].
    unfold with_stage, with_landmarker, with_offscreen.
    cbn [landmarker stage].
    rewrite Hland. split; reflexivity.
  - intros [= _ <-]. revert Hcam. unfold setupWebcam, openCamera.
    destruct (getUserMedia env high); destruct (webcam env);
      destruct (getUserMedia env fallback);
      intros [= _ <-]; split; reflexivity.
Qed.

(** X30: with no frame requested before, the first frame is requested
    exactly when the start returns: a start that fails (no overlay, no video
    element, no camera, no model) never starts the render loop. *)
Theorem render_loop_starts_only_after_a_full_start env r :
  Overlay.frameRequested (stage r) = false ->
  Overlay.frameRequested (stage (snd (enableVideoProcessing env r)))
  = settles (fst (enableVideoProcessing env r)).
Proof.
  intros Hidle.
  destruct (enableVideoProcessing env r) as [[[]|e] r'] eqn:Hrun; cbn [fst snd settles].
  - destruct (enableVideoProcessing_inv env r r' Hrun) as (stream & _ & ->).
    reflexivity.
  - destruct (failed_start_requests_nothing env r e r' Hrun) as [-> _].
    exact Hidle.
Qed.

End CameraFacts.

Lemma start_sizes_the_canvases_to_the_video_example :
  fst (Camera.enableVideoProcessing Camera.modest_camera Camera.fresh) = Return tt
  /\ exists stream,
       (Camera.getUserMedia Camera.modest_camera Camera.high = Return stream
        \/ Camera.getUserMedia Camera.modest_camera Camera.fallback = Return stream)
       /\ Camera.srcObject
            (snd (Camera.enableVideoProcessing Camera.modest_camera Camera.fresh))
          = Some stream
       /\ Camera.offscreen
            (snd (Camera.enableVideoProcessing Camera.modest_camera Camera.fresh))
          = Some {| VideoProcessing.width := Camera.videoWidth stream;
                    VideoProcessing.height := Camera.videoHeight stream;
                    VideoProcessing.picture := None |}
       /\ Camera.landmarker
            (snd (Camera.enableVideoProcessing Camera.modest_camera Camera.fresh))
          = true
       /\ Camera.stage
            (snd (Camera.enableVideoProcessing Camera.modest_camera Camera.fresh))
          = Overlay.with_frameRequested true
              (Overlay.with_ctx
                 (Some (Camera.blank (Camera.videoWidth stream)
                          (Camera.videoHeight stream)))
                 (Camera.stage Camera.fresh)).
Proof.
  split; [reflexivity|].
  apply (start_sizes_the_canvases_to_the_video Camera.modest_camera Camera.fresh).
  reflexivity.
Defined.

Lemma render_loop_starts_only_after_a_full_start_example :
  Overlay.frameRequested (Camera.stage Camera.fresh) = false
  /\ Overlay.frameRequested
       (Camera.stage
          (snd (Camera.enableVideoProcessing Camera.model_unreachable Camera.fresh)))
     = Camera.settles
         (fst (Camera.enableVideoProcessing Camera.model_unreachable Camera.fresh)).
Proof.
  split; [reflexivity|].
  apply (render_loop_starts_only_after_a_full_start
           Camera.model_unreachable Camera.fresh).
  reflexivity.
Defined.
